(** * mistral_ocr: a shallow embedding of [main.py]

    The program reads a PDF, base64-encodes it, hands it to the OCR
    client, and writes the returned pages as Markdown.  Its functions
    [encode_pdf], [write_markdown], [run_ocr] and [main] are embedded
    below as computations over an explicit world (environment variables,
    file system, OCR service, standard streams), in an error monad whose
    failures are Python exceptions.

    What lies outside [main.py] is modelled as follows.
    - [main] receives the parsed command line; [argparse] is not
      modelled.
    - A path is its parsed form (anchor and components); symbolic links
      and the working directory are not resolved.
    - A file written with [write_text] holds the text itself; the
      encoding and newline handling of the text layer are not modelled.
    - The OCR client is a function of the world: given the credential
      and the keyword arguments it returns a response or raises.
    - Every call to the file system or to the client is recorded on a
      trace. *)

From Stdlib Require Import ZArith NArith List Ascii String DecimalString.
From Stdlib Require Init.Byte.
From stdpp Require Import gmap strings list fin_maps.
Import ListNotations.

Local Open Scope Z_scope.

(** ** Python values *)

(** A Python [str] is a sequence of Unicode code points. *)
Abbreviation codepoint := N (only parsing).
Abbreviation pystr := (list N) (only parsing).

(** A Python [bytes] object. *)
Abbreviation bytes := (list Byte.byte) (only parsing).

Module Str.

(** The code points of an ASCII source literal. *)
Definition lit (s : string) : pystr :=
  map N_of_ascii (list_ascii_of_string s).

(** ["\n"] *)
Definition nl : pystr := [10%N].

(** [str(n)] for an [int]: decimal digits, with a sign when negative. *)
Definition of_int (n : Z) : pystr :=
  lit (NilZero.string_of_int (Z.to_int n)).

(** [str.isspace] on one character, as CPython's
    [_PyUnicode_IsWhitespace] decides it. *)
Definition is_space (c : codepoint) : bool :=
  ((9 <=? c) && (c <=? 13) || (28 <=? c) && (c <=? 32)
   || (c =? 133) || (c =? 160) || (c =? 5760)
   || (8192 <=? c) && (c <=? 8202)
   || (c =? 8232) || (c =? 8233) || (c =? 8239) || (c =? 8287)
   || (c =? 12288))%N.

(** [s.rstrip()]: drop the longest suffix of whitespace. *)
Fixpoint rstrip (s : pystr) : pystr :=
  match s with
  | [] => []
  | c :: s' =>
      match rstrip s' with
      | [] => if is_space c then [] else [c]
      | r => c :: r
      end
  end.

(** [s.lstrip()] and [s.strip()], for comparison with [rstrip]. *)
Fixpoint lstrip (s : pystr) : pystr :=
  match s with
  | [] => []
  | c :: s' => if is_space c then lstrip s' else s
  end.

Definition strip (s : pystr) : pystr := rstrip (lstrip s).

(** ["".join(parts)] *)
Definition join_empty (parts : list pystr) : pystr := concat parts.

(** [sep.join(parts)] *)
Fixpoint join (sep : pystr) (parts : list pystr) : pystr :=
  match parts with
  | [] => []
  | [p] => p
  | p :: ps => p ++ sep ++ join sep ps
  end.

Fixpoint starts_with (needle s : pystr) : bool :=
  match needle, s with
  | [], _ => true
  | _ :: _, [] => false
  | a :: needle', b :: s' => (a =? b)%N && starts_with needle' s'
  end.

(** [needle in s] *)
Fixpoint contains (needle s : pystr) : bool :=
  starts_with needle s
  || match s with
     | [] => false
     | _ :: s' => contains needle s'
     end.

End Str.

(** ** [base64.b64encode] (RFC 4648, standard alphabet, padded) *)

Module Base64.

(** The character of a 6-bit value in the standard alphabet. *)
Definition alphabet (v : N) : codepoint :=
  (if v <? 26 then 65 + v
   else if v <? 52 then 97 + (v - 26)
   else if v <? 62 then 48 + (v - 52)
   else if v =? 62 then 43
   else 47)%N.

Definition pad : codepoint := 61%N.

Definition sextet (word : N) (shift : N) : codepoint :=
  alphabet (N.land (N.shiftr word shift) 63).

Fixpoint b64encode (data : bytes) : pystr :=
  match data with
  | [] => []
  | [a] =>
      let w := N.shiftl (Byte.to_N a) 16 in
      [sextet w 18; sextet w 12; pad; pad]
  | [a; b] =>
      let w := N.lor (N.shiftl (Byte.to_N a) 16) (N.shiftl (Byte.to_N b) 8) in
      [sextet w 18; sextet w 12; sextet w 6; pad]
  | a :: b :: c :: rest =>
      let w := N.lor (N.lor (N.shiftl (Byte.to_N a) 16)
                            (N.shiftl (Byte.to_N b) 8)) (Byte.to_N c) in
      sextet w 18 :: sextet w 12 :: sextet w 6 :: sextet w 0
        :: b64encode rest
  end.

End Base64.


(** ** [pathlib.Path] *)

(** A parsed path: whether it is anchored at the root, and its
    components. *)
Record Path := mkPath { anchored : bool; parts : list (list N) }.

#[global] Instance Path_eq_dec : EqDecision Path.
Proof. solve_decision. Defined.

#[global] Instance Path_countable : Countable Path :=
  inj_countable' (fun p => (anchored p, parts p))
                 (fun ap => mkPath ap.1 ap.2)
                 (fun p => match p with mkPath _ _ => eq_refl end).

Module PathLib.

(** [p.name]: the final path component, if any. *)
Definition name (p : Path) : pystr := List.last (parts p) [].

(** [p.parent]: the path without its final component; a path with no
    component is its own parent. *)
Definition parent (p : Path) : Path :=
  mkPath (anchored p) (removelast (parts p)).

(** [str(p)] *)
Definition to_str (p : Path) : pystr :=
  if anchored p then Str.lit "/" ++ Str.join (Str.lit "/") (parts p)
  else match parts p with
       | [] => Str.lit "."
       | ps => Str.join (Str.lit "/") ps
       end.

End PathLib.

(** ** Exceptions *)

Inductive exn_class :=
| FileNotFoundError | PermissionError | IsADirectoryError
| NotADirectoryError | FileExistsError
| RuntimeError
| SDKError
| OtherException      (* any other subclass of [Exception] *)
| KeyboardInterrupt.  (* a [BaseException] outside [Exception] *)

(** An exception object: its class and [str(exc)]; [sys.exit(code)]
    raises [SystemExit]. *)
Inductive exn :=
| PyExc (cls : exn_class) (msg : list N)
| SystemExit (code : Z).

#[global] Instance exn_class_eq_dec : EqDecision exn_class.
Proof. solve_decision. Defined.

(** [isinstance(e, FileNotFoundError)] *)
Definition is_FileNotFoundError (e : exn) : bool :=
  match e with PyExc FileNotFoundError _ => true | _ => false end.

(** [isinstance(e, OSError)] *)
Definition is_OSError (e : exn) : bool :=
  match e with
  | PyExc (FileNotFoundError | PermissionError | IsADirectoryError
          | NotADirectoryError | FileExistsError) _ => true
  | _ => false
  end.

(** [isinstance(e, SDKError)] *)
Definition is_SDKError (e : exn) : bool :=
  match e with PyExc SDKError _ => true | _ => false end.

(** [isinstance(e, Exception)] *)
Definition is_Exception (e : exn) : bool :=
  match e with
  | PyExc KeyboardInterrupt _ | SystemExit _ => false
  | PyExc _ _ => true
  end.

(** [str(e)] *)
Definition exn_str (e : exn) : pystr :=
  match e with
  | PyExc _ msg => msg
  | SystemExit code => Str.of_int code
  end.

Inductive result (A : Type) :=
| Ok (a : A)
| Raise (e : exn).
Arguments Ok {A} a.
Arguments Raise {A} e.

(** ** The world the program runs in *)

Inductive contents :=
| Binary (data : list Byte.byte)
| Text (text : list N).

Inductive node :=
| Dir
| File (readable writable : bool) (c : contents).

(** A page of the OCR response, and the response. *)
Record Page := mkPage { index : Z; markdown : list N }.
Record Response := mkResponse { pages : list Page }.

(** Values of the keyword arguments handed to the OCR client. *)
Inductive pyval :=
| VStr (s : list N)
| VBool (b : bool)
| VDict (d : gmap string (list N)).

Inductive event :=
| EvReadBytes (p : Path)
| EvOcrProcess (api_key : list N) (kwargs : gmap string pyval)
| EvMkdir (p : Path)
| EvWriteText (p : Path) (text : list N).

Record World := mkWorld {
  environ : gmap string (list N);          (* [os.environ] *)
  fs : gmap Path node;                     (* the file system *)
  locale_encode : list N -> list Byte.byte;(* text encoding of the locale *)
  ocr_service : list N -> gmap string pyval -> result Response;
                                           (* [Mistral(api_key).ocr.process] *)
  stdout : list N;
  stderr : list N;
  trace : list event                       (* calls made, oldest first *)
}.

Definition set_fs (f : gmap Path node) (w : World) : World :=
  mkWorld (environ w) f (locale_encode w) (ocr_service w)
          (stdout w) (stderr w) (trace w).

Definition log (ev : event) (w : World) : World :=
  mkWorld (environ w) (fs w) (locale_encode w) (ocr_service w)
          (stdout w) (stderr w) (trace w ++ [ev]).

Definition put_stdout (s : pystr) (w : World) : World :=
  mkWorld (environ w) (fs w) (locale_encode w) (ocr_service w)
          (stdout w ++ s) (stderr w) (trace w).

Definition put_stderr (s : pystr) (w : World) : World :=
  mkWorld (environ w) (fs w) (locale_encode w) (ocr_service w)
          (stdout w) (stderr w ++ s) (trace w).

(** ** Computations: state passing with exceptions *)

Definition M (A : Type) : Type := World -> result A * World.

Definition ret {A} (a : A) : M A := fun w => (Ok a, w).

Definition raise {A} (e : exn) : M A := fun w => (Raise e, w).

Definition bind {A B} (m : M A) (k : A -> M B) : M B :=
  fun w =>
    match m w with
    | (Ok a, w') => k a w'
    | (Raise e, w') => (Raise e, w')
    end.

(** [try: m  except <catches> as e: handler e] *)
Definition try_except {A} (m : M A) (catches : exn -> bool)
    (handler : exn -> M A) : M A :=
  fun w =>
    match m w with
    | (Ok a, w') => (Ok a, w')
    | (Raise e, w') => if catches e then handler e w' else (Raise e, w')
    end.

Notation "x <- m ;; k" := (bind m (fun x => k))
  (at level 100, m at next level, right associativity).
Notation "m ;;; k" := (bind m (fun _ => k))
  (at level 100, right associativity).

(** ** Operating-system and library calls *)

Module OS.

(** The node stored under a path; a path without components is the
    root (or the working directory) and is always a directory. *)
Definition node_at (f : gmap Path node) (p : Path) : option node :=
  match parts p with
  | [] => Some Dir
  | _ => f !! p
  end.

Inductive lookup :=
| Found (n : node)
| NoEntry     (* ENOENT *)
| NotDir.     (* ENOTDIR: a component on the way is a file *)

(** Path resolution, one component at a time from the top. *)
Fixpoint resolve (f : gmap Path node) (a : bool)
    (pre rest : list (list N)) : lookup :=
  match rest with
  | [] =>
      match node_at f (mkPath a pre) with
      | Some n => Found n
      | None => NoEntry
      end
  | c :: rest' =>
      match node_at f (mkPath a pre) with
      | Some Dir => resolve f a (pre ++ [c]) rest'
      | Some (File _ _ _) => NotDir
      | None => NoEntry
      end
  end.

Definition stat (f : gmap Path node) (p : Path) : lookup :=
  resolve f (anchored p) [] (parts p).

Definition is_dir (f : gmap Path node) (p : Path) : bool :=
  match stat f p with Found Dir => true | _ => false end.

(** An [OSError] as the interpreter words it (the quoting of the
    path is kept plain). *)
Definition os_error (c : exn_class) (what : string) (p : Path) : exn :=
  PyExc c (Str.lit what ++ Str.lit ": '" ++ PathLib.to_str p ++ Str.lit "'").

Definition ENOENT :=
  os_error FileNotFoundError "[Errno 2] No such file or directory".
Definition EACCES := os_error PermissionError "[Errno 13] Permission denied".
Definition EEXIST := os_error FileExistsError "[Errno 17] File exists".
Definition ENOTDIR := os_error NotADirectoryError "[Errno 20] Not a directory".
Definition EISDIR := os_error IsADirectoryError "[Errno 21] Is a directory".

(** [os.getenv(name)] *)
Definition getenv (name : string) : M (option (list N)) :=
  fun w => (Ok (environ w !! name), w).

(** [p.read_bytes()] *)
Definition read_bytes (p : Path) : M (list Byte.byte) :=
  fun w0 =>
    let w := log (EvReadBytes p) w0 in
    match stat (fs w) p with
    | Found (File true _ (Binary data)) => (Ok data, w)
    | Found (File true _ (Text text)) => (Ok (locale_encode w text), w)
    | Found (File false _ _) => (Raise (EACCES p), w)
    | Found Dir => (Raise (EISDIR p), w)
    | NoEntry => (Raise (ENOENT p), w)
    | NotDir => (Raise (ENOTDIR p), w)
    end.

(** [os.mkdir(p)] *)
Definition mkdir (p : Path) : M unit :=
  fun w0 =>
    let w := log (EvMkdir p) w0 in
    match stat (fs w) p with
    | Found _ => (Raise (EEXIST p), w)
    | NotDir => (Raise (ENOTDIR p), w)
    | NoEntry =>
        if is_dir (fs w) (PathLib.parent p)
        then (Ok tt, set_fs (<[p := Dir]> (fs w)) w)
        else (Raise (ENOENT p), w)
    end.

(** The [except OSError] arm of [Path.mkdir] with [exist_ok=True]:
    an existing directory is accepted. *)
Definition accept_existing_dir (p : Path) (e : exn) : M unit :=
  fun w => if is_dir (fs w) p then (Ok tt, w) else (Raise e, w).

(** [p.mkdir(parents=False, exist_ok=True)] *)
Definition mkdir_exist_ok (p : Path) : M unit :=
  try_except (mkdir p) is_OSError
    (fun e => if is_FileNotFoundError e then raise e
              else accept_existing_dir p e).

(** [p.mkdir(parents=True, exist_ok=True)], on the components of [p]
    in reverse: a missing parent is made first, then [p] itself. *)
Fixpoint mkdir_parents_rev (a : bool) (rparts : list (list N)) : M unit :=
  let p := mkPath a (rev rparts) in
  try_except (mkdir p) is_OSError
    (fun e =>
       if is_FileNotFoundError e then
         match rparts with
         | [] => raise e
         | _ :: up => mkdir_parents_rev a up ;;; mkdir_exist_ok p
         end
       else accept_existing_dir p e).

Definition mkdir_parents (p : Path) : M unit :=
  mkdir_parents_rev (anchored p) (rev (parts p)).

(** [p.write_text(text)] *)
Definition write_text (p : Path) (text : list N) : M unit :=
  fun w0 =>
    let w := log (EvWriteText p text) w0 in
    match stat (fs w) p with
    | Found Dir => (Raise (EISDIR p), w)
    | Found (File r true _) =>
        (Ok tt, set_fs (<[p := File r true (Text text)]> (fs w)) w)
    | Found (File _ false _) => (Raise (EACCES p), w)
    | NotDir => (Raise (ENOTDIR p), w)
    | NoEntry =>
        if is_dir (fs w) (PathLib.parent p)
        then (Ok tt, set_fs (<[p := File true true (Text text)]> (fs w)) w)
        else (Raise (ENOENT p), w)
    end.

(** [print(s)] and [print(s, file=sys.stderr)] *)
Definition print (s : list N) : M unit :=
  fun w => (Ok tt, put_stdout (s ++ Str.nl) w).

Definition eprint (s : list N) : M unit :=
  fun w => (Ok tt, put_stderr (s ++ Str.nl) w).

(** [sys.exit(code)] *)
Definition exit {A} (code : Z) : M A := raise (SystemExit code).

End OS.

(** [Mistral(api_key=api_key).ocr.process] applied to the keyword
    arguments [kwargs]. *)
Definition ocr_process (api_key : list N) (kwargs : gmap string pyval)
    : M Response :=
  fun w0 =>
    let w := log (EvOcrProcess api_key kwargs) w0 in
    (ocr_service w api_key kwargs, w).

(** ** The program *)

Definition encode_pdf (pdf_path : Path) : M (list N) :=
  data <- try_except (OS.read_bytes pdf_path) is_FileNotFoundError
            (fun _ => raise (PyExc FileNotFoundError
                         (Str.lit "PDF not found: "
                            ++ PathLib.to_str pdf_path))) ;;
  ret (Base64.b64encode data).

(** The two entries appended to [output_lines] for one page. *)
Definition page_heading (page : Page) : list N :=
  Str.lit "# Page " ++ Str.of_int (index page + 1) ++ Str.nl ++ Str.nl.

Definition page_body (page : Page) : list N :=
  Str.rstrip (markdown page) ++ Str.nl ++ Str.nl.

(** [output_lines] once the loop over [response.pages] has run: each
    page appends its heading, then its body. *)
Definition output_lines (response : Response) : list (list N) :=
  fold_left (fun lines page => (lines ++ [page_heading page])
                                 ++ [page_body page])
            (pages response) [].

Definition write_markdown (output_path : Path) (response : Response)
    : M unit :=
  OS.mkdir_parents (PathLib.parent output_path) ;;;
  OS.write_text output_path (Str.join_empty (output_lines response)).

Definition make_document (base64_pdf : list N) (pdf_path : Path)
    : gmap string (list N) :=
  {[ "type" := Str.lit "document_url";
     "document_url" := Str.lit "data:application/pdf;base64," ++ base64_pdf;
     "document_name" := PathLib.name pdf_path ]}.

Definition make_kwargs (model : list N) (document : gmap string (list N))
    (include_images : bool) : gmap string pyval :=
  let kwargs : gmap string pyval :=
    {[ "model" := VStr model; "document" := VDict document ]} in
  if include_images
  then <[ "include_image_base64" := VBool true ]> kwargs
  else kwargs.

Definition run_ocr (pdf_path : Path) (model : list N)
    (include_images : bool) (output_path : Path) : M (list N) :=
  api_key <- OS.getenv "MISTRAL_API_KEY" ;;
  match api_key with
  | None | Some [] =>
      raise (PyExc RuntimeError
               (Str.lit "MISTRAL_API_KEY environment variable is not set"))
  | Some key =>
      base64_pdf <- encode_pdf pdf_path ;;
      let document := make_document base64_pdf pdf_path in
      let kwargs := make_kwargs model document include_images in
      response <- try_except (ocr_process key kwargs) is_SDKError
                    (fun err => raise (PyExc RuntimeError
                                  (Str.lit "OCR request failed: "
                                     ++ exn_str err))) ;;
      write_markdown output_path response ;;;
      ret (PathLib.to_str output_path)
  end.

(** The parsed command line. *)
Record Args := mkArgs {
  pdf : Path;
  model : list N;
  include_images : bool;
  output : Path
}.

Definition main (args : Args) : M unit :=
  output_file <-
    try_except
      (run_ocr (pdf args) (model args) (include_images args) (output args))
      is_Exception
      (fun exc => OS.eprint (Str.lit "Error: " ++ exn_str exc) ;;;
                  OS.exit 1) ;;
  OS.print (Str.lit "OCR markdown written to " ++ output_file).

(** How the process ends: [main] returning is exit code 0, [SystemExit]
    is its code, any other exception escapes to the interpreter. *)
Inductive outcome :=
| Exit (code : Z)
| Uncaught (e : exn).

Definition run (args : Args) (w : World) : outcome * World :=
  match main args w with
  | (Ok _, w') => (Exit 0, w')
  | (Raise (SystemExit code), w') => (Exit code, w')
  | (Raise e, w') => (Uncaught e, w')
  end.

(** The events a run adds to the trace. *)
Definition new_events (args : Args) (w : World) : list event :=
  drop (length (trace w)) (trace (run args w).2).

(** Events that touch the output side of the file system. *)
Definition touches_output (ev : event) : bool :=
  match ev with
  | EvMkdir _ | EvWriteText _ _ => true
  | _ => false
  end.

(** ** Notions used in the statements *)

(** Every proper prefix on the way from [pre] down [rest] is a
    directory. *)
Fixpoint ancestors_ok (f : gmap Path node) (a : bool)
    (pre rest : list (list N)) : Prop :=
  match rest with
  | [] => True
  | c :: rest' =>
      OS.node_at f (mkPath a pre) = Some Dir
      /\ ancestors_ok f a (pre ++ [c]) rest'
  end.

(** [w'] differs from [w] at most in the file system and in new
    output-side events on the trace. *)
Definition fs_step (w w' : World) : Prop :=
  exists f evs,
    w' = mkWorld (environ w) f (locale_encode w) (ocr_service w)
                 (stdout w) (stderr w) (trace w ++ evs)
    /\ forallb touches_output evs = true.

Definition preserves {A} (m : M A) : Prop :=
  forall w r w', m w = (r, w') -> fs_step w w'.

(** [m] raises nothing but [OSError]s. *)
Definition raises_os {A} (m : M A) : Prop :=
  forall w e w', m w = (Raise e, w') -> is_OSError e = true.

Definition not_set : exn :=
  PyExc RuntimeError
    (Str.lit "MISTRAL_API_KEY environment variable is not set").

(** The keyword arguments [run_ocr] builds from the bytes read. *)
Definition request (args : Args) (data : list Byte.byte)
    : gmap string pyval :=
  make_kwargs (model args)
    (make_document (Base64.b64encode data) (pdf args))
    (include_images args).

(** What [encode_pdf] raises when [read_bytes] raised [e]. *)
Definition read_failure (p : Path) (e : exn) : exn :=
  if is_FileNotFoundError e
  then PyExc FileNotFoundError
         (Str.lit "PDF not found: " ++ PathLib.to_str p)
  else e.

(** What [run_ocr] raises when [ocr.process] raised [e]. *)
Definition call_failure (e : exn) : exn :=
  if is_SDKError e
  then PyExc RuntimeError (Str.lit "OCR request failed: " ++ exn_str e)
  else e.

(** The line [main] prints on standard error for an exception whose
    text is [msg]. *)
Definition error_line (msg : list N) : list N :=
  (Str.lit "Error: " ++ msg) ++ Str.nl.

(** The three ways a run fails before [write_markdown] is reached. *)
Inductive fails_before_writing (args : Args) (w : World) : Prop :=
| missing_credential :
    environ w !! "MISTRAL_API_KEY"%string = None
    \/ environ w !! "MISTRAL_API_KEY"%string = Some [] ->
    fails_before_writing args w
| unreadable_pdf (key : list N) (e : exn) :
    environ w !! "MISTRAL_API_KEY"%string = Some key -> key <> [] ->
    (OS.read_bytes (pdf args) w).1 = Raise e ->
    fails_before_writing args w
| failed_remote_call (key : list N) (data : list Byte.byte) (e : exn) :
    environ w !! "MISTRAL_API_KEY"%string = Some key -> key <> [] ->
    (OS.read_bytes (pdf args) w).1 = Ok data ->
    ocr_service w key (request args data) = Raise e ->
    fails_before_writing args w.



(** [m] changes the file system at most at the paths in [S]. *)
Definition touches_only {A} (S : Path -> Prop) (m : M A) : Prop :=
  forall w r w', m w = (r, w') ->
    forall q, ~ S q -> fs w' !! q = fs w !! q.

Definition is_call (ev : event) : bool :=
  match ev with EvOcrProcess _ _ => true | _ => false end.

Definition is_read (ev : event) : bool :=
  match ev with EvReadBytes _ => true | _ => false end.

(** The characters of padded base64 text. *)
Definition is_b64_char (c : N) : bool :=
  ((65 <=? c) && (c <=? 90) || (97 <=? c) && (c <=? 122)
   || (48 <=? c) && (c <=? 57) || (c =? 43) || (c =? 47) || (c =? 61))%N.

(** The text one page contributes under heading number [n]. *)
Definition page_text (n : Z) (page : Page) : list N :=
  Str.lit "# Page " ++ Str.of_int n ++ Str.nl ++ Str.nl
    ++ Str.rstrip (markdown page) ++ Str.nl ++ Str.nl.

(** The output format in the specification's words: one heading per
    page, numbered by the page's position, counting from [n]. *)
Fixpoint numbered_from (n : Z) (pages : list Page) : list N :=
  match pages with
  | [] => []
  | page :: pages' => page_text n page ++ numbered_from (n + 1) pages'
  end.

Definition markdown_by_position (pages : list Page) : list N :=
  numbered_from 1 pages.

(** The same world with the credential variable removed. *)
Definition unset_credential (w : World) : World :=
  mkWorld (delete "MISTRAL_API_KEY"%string (environ w)) (fs w)
          (locale_encode w) (ocr_service w) (stdout w) (stderr w) (trace w).

(** ** Sample inputs *)

Module Sample.

Definition doc_pdf : Path := mkPath false [Str.lit "doc.pdf"].

Definition out_md : Path :=
  mkPath false [Str.lit "out"; Str.lit "sub"; Str.lit "ocr_output.md"].

(** [%PDF] *)
Definition pdf_bytes : list Byte.byte :=
  [Byte.x25; Byte.x50; Byte.x44; Byte.x46].

Definition args (images : bool) : Args :=
  mkArgs doc_pdf (Str.lit "mistral-ocr-latest") images out_md.

Definition with_key (key : list N) : gmap string (list N) :=
  {[ "MISTRAL_API_KEY"%string := key ]}.

Definition one_pdf : gmap Path node :=
  {[ doc_pdf := File true true (Binary pdf_bytes) ]}.

(** A directory where the PDF is expected. *)
Definition pdf_is_dir : gmap Path node := {[ doc_pdf := Dir ]}.

Definition answers (resp : Response)
    : list N -> gmap string pyval -> result Response :=
  fun _ _ => Ok resp.

Definition fails (e : exn)
    : list N -> gmap string pyval -> result Response :=
  fun _ _ => Raise e.

Definition world (env : gmap string (list N)) (files : gmap Path node)
    (service : list N -> gmap string pyval -> result Response) : World :=
  mkWorld env files (fun _ => []) service [] [] [].

Definition two_pages : Response :=
  mkResponse [mkPage 0 (Str.lit "A"); mkPage 1 (Str.lit "B")].

Definition secret : list N := Str.lit "secret".

End Sample.

(** * Properties *)

(** ** Library functions on sample inputs *)

Example b64_Man :
  Base64.b64encode [Byte.x4d; Byte.x61; Byte.x6e] = Str.lit "TWFu".
Proof. reflexivity. Qed.

Example b64_Ma :
  Base64.b64encode [Byte.x4d; Byte.x61] = Str.lit "TWE=".
Proof. reflexivity. Qed.

Example b64_M : Base64.b64encode [Byte.x4d] = Str.lit "TQ==".
Proof. reflexivity. Qed.

Example rstrip_both : Str.rstrip (Str.lit "  a b  ") = Str.lit "  a b".
Proof. reflexivity. Qed.

Example of_int_12 : Str.of_int 12 = Str.lit "12".
Proof. reflexivity. Qed.

Example of_int_0 : Str.of_int 0 = Str.lit "0".
Proof. reflexivity. Qed.

Example of_int_neg : Str.of_int (-3) = Str.lit "-3".
Proof. reflexivity. Qed.

(** ** Strings *)

Section StringFacts.

Lemma starts_with_app (needle rest : list N) :
  Str.starts_with needle (needle ++ rest) = true.
Proof.
  induction needle as [|c needle IH]; simpl.
  - reflexivity.
  - rewrite N.eqb_refl. exact IH.
Qed.

Lemma contains_unfold (needle s : list N) :
  Str.contains needle s =
  Str.starts_with needle s
  || match s with [] => false | _ :: s' => Str.contains needle s' end.
Proof. destruct s; reflexivity. Qed.

Lemma contains_app (needle pre post : list N) :
  Str.contains needle (pre ++ needle ++ post) = true.
Proof.
  induction pre as [|c pre IH].
  - rewrite contains_unfold. simpl app.
    rewrite starts_with_app. reflexivity.
  - change ((c :: pre) ++ needle ++ post)
      with (c :: (pre ++ needle ++ post)).
    simpl. rewrite IH. apply orb_true_r.
Qed.

Lemma error_line_contains (needle rest : list N) :
  Str.contains needle (error_line (needle ++ rest)) = true.
Proof.
  unfold error_line. rewrite <- !app_assoc. apply contains_app.
Qed.

(** [rstrip] removes a suffix made of whitespace only... *)
Lemma rstrip_suffix (s : list N) :
  exists ws, s = Str.rstrip s ++ ws /\ forallb Str.is_space ws = true.
Proof.
  induction s as [|c s [ws [Hs Hws]]]; simpl.
  - exists []. split; reflexivity.
  - destruct (Str.rstrip s) as [|r rs] eqn:E.
    + simpl in Hs. subst ws.
      destruct (Str.is_space c) eqn:Hc.
      * exists (c :: s). simpl. rewrite Hc, Hws. split; reflexivity.
      * exists s. split; [reflexivity | exact Hws].
    + exists ws. split; [|exact Hws].
      simpl. f_equal. exact Hs.
Qed.

(** ... and what it keeps does not end in whitespace. *)
Lemma rstrip_last (s : list N) (c : N) :
  List.last (Str.rstrip s) c = c \/
  Str.is_space (List.last (Str.rstrip s) c) = false.
Proof.
  induction s as [|a s IH]; simpl.
  - left. reflexivity.
  - destruct (Str.rstrip s) as [|r rs] eqn:E.
    + destruct (Str.is_space a) eqn:Ha; simpl; [left | right]; auto.
    + exact IH.
Qed.

Lemma rstrip_nonempty_last (s : list N) :
  Str.rstrip s <> [] ->
  Str.is_space (List.last (Str.rstrip s) 0%N) = false.
Proof.
  induction s as [|a s IH]; simpl.
  - congruence.
  - destruct (Str.rstrip s) as [|r rs] eqn:E.
    + destruct (Str.is_space a) eqn:Ha; simpl; congruence.
    + intros _. apply IH. discriminate.
Qed.

End StringFacts.

(** ** The file system *)

Section FileSystemFacts.

Lemma node_at_insert_eq (f : gmap Path node) (p : Path) (n : node) :
  parts p <> [] -> OS.node_at (<[p := n]> f) p = Some n.
Proof.
  intros Hp. unfold OS.node_at.
  destruct (parts p); [congruence | apply lookup_insert_eq].
Qed.

Lemma node_at_insert_ne (f : gmap Path node) (p q : Path) (n : node) :
  p <> q -> OS.node_at (<[p := n]> f) q = OS.node_at f q.
Proof.
  intros Hpq. unfold OS.node_at.
  destruct (parts q); [reflexivity | by apply lookup_insert_ne].
Qed.

Lemma resolve_insert (f : gmap Path node) (a : bool) (n : node) :
  forall rest pre,
    ancestors_ok f a pre rest -> pre ++ rest <> [] ->
    OS.resolve (<[mkPath a (pre ++ rest) := n]> f) a pre rest = OS.Found n.
Proof.
  induction rest as [|c rest IH]; intros pre Hok Hne; simpl.
  - rewrite app_nil_r in *. by rewrite node_at_insert_eq.
  - destruct Hok as [Hdir Hok].
    rewrite node_at_insert_ne, Hdir.
    + replace (pre ++ c :: rest) with ((pre ++ [c]) ++ rest)
        by (by rewrite <- app_assoc).
      apply IH; [exact Hok |].
      intros E. apply app_eq_nil in E as [E _].
      by apply app_eq_nil in E as [_ E].
    + intros E. injection E as E.
      apply (f_equal (@length _)) in E.
      rewrite length_app in E. simpl in E. lia.
Qed.

Lemma resolve_found_ancestors (f : gmap Path node) (a : bool) :
  forall rest pre x,
    OS.resolve f a pre rest = OS.Found x -> ancestors_ok f a pre rest.
Proof.
  induction rest as [|c rest IH]; intros pre x H; simpl in *.
  - exact I.
  - destruct (OS.node_at f (mkPath a pre)) as [[|r wr ct]|];
      try discriminate.
    split; [reflexivity | by eapply IH].
Qed.

Lemma resolve_parent_ancestors (f : gmap Path node) (a : bool) :
  forall rest pre,
    rest <> [] ->
    OS.resolve f a pre (removelast rest) = OS.Found Dir ->
    ancestors_ok f a pre rest.
Proof.
  induction rest as [|c rest IH]; intros pre Hne H; [congruence |].
  destruct rest as [|c' rest].
  - simpl in *.
    destruct (OS.node_at f (mkPath a pre)) as [[|r wr ct]|];
      try discriminate; try (injection H as H; discriminate).
    by split.
  - change (removelast (c :: c' :: rest))
      with (c :: removelast (c' :: rest)) in H.
    simpl in H. simpl.
    destruct (OS.node_at f (mkPath a pre)) as [[|r wr ct]|];
      try discriminate.
    split; [reflexivity |].
    apply IH; [discriminate | exact H].
Qed.

Lemma stat_no_parts (f : gmap Path node) (p : Path) :
  parts p = [] -> OS.stat f p = OS.Found Dir.
Proof.
  intros Hp. unfold OS.stat. rewrite Hp. simpl.
  unfold OS.node_at. simpl. reflexivity.
Qed.

Lemma stat_insert_existing (f : gmap Path node) (p : Path) (x n : node) :
  parts p <> [] -> OS.stat f p = OS.Found x ->
  OS.stat (<[p := n]> f) p = OS.Found n.
Proof.
  intros Hp Hx. destruct p as [a ps]. unfold OS.stat in *. simpl in *.
  apply (resolve_insert f a n ps []); [by eapply resolve_found_ancestors |].
  exact Hp.
Qed.

Lemma stat_insert_new (f : gmap Path node) (p : Path) (n : node) :
  parts p <> [] -> OS.is_dir f (PathLib.parent p) = true ->
  OS.stat (<[p := n]> f) p = OS.Found n.
Proof.
  intros Hp Hd. destruct p as [a ps].
  unfold OS.is_dir, OS.stat, PathLib.parent in *. simpl in *.
  apply (resolve_insert f a n ps []); [|exact Hp].
  apply resolve_parent_ancestors; [exact Hp |].
  destruct (OS.resolve f a [] (removelast ps)) as [[|r wr ct]| |];
    by try discriminate.
Qed.

(** After a successful [write_text], the path holds the text. *)
Lemma write_text_stat (p : Path) (text : list N) (w w' : World) :
  OS.write_text p text w = (Ok tt, w') ->
  exists r, OS.stat (fs w') p = OS.Found (File r true (Text text)).
Proof.
  unfold OS.write_text. intros H.
  destruct (parts p) as [|c ps] eqn:Hp.
  { rewrite stat_no_parts in H by exact Hp. discriminate. }
  assert (Hne : parts p <> []) by (rewrite Hp; discriminate).
  simpl in H.
  destruct (OS.stat (fs w) p) as [[|r [|] ct]| |] eqn:Hs;
    try discriminate.
  - injection H as <-. exists r. simpl.
    by eapply stat_insert_existing.
  - destruct (OS.is_dir (fs w) (PathLib.parent p)) eqn:Hd;
      [|discriminate].
    injection H as <-. exists true. simpl.
    by apply stat_insert_new.
Qed.

End FileSystemFacts.

(** ** What the output-side calls may change *)

Section OutputSteps.

Lemma fs_step_refl (w : World) : fs_step w w.
Proof.
  exists (fs w), []. rewrite app_nil_r. by destruct w.
Qed.

Lemma fs_step_trans (w1 w2 w3 : World) :
  fs_step w1 w2 -> fs_step w2 w3 -> fs_step w1 w3.
Proof.
  intros (f & evs & -> & H) (f' & evs' & -> & H'). simpl.
  exists f', (evs ++ evs'). rewrite app_assoc, forallb_app, H, H'.
  by split.
Qed.

Lemma fs_step_event (w : World) (f : gmap Path node) (ev : event) :
  touches_output ev = true -> fs_step w (set_fs f (log ev w)).
Proof.
  intros H. exists f, [ev]. simpl. by rewrite H.
Qed.

Lemma fs_step_log (w : World) (ev : event) :
  touches_output ev = true -> fs_step w (log ev w).
Proof.
  intros H. exists (fs w), [ev]. simpl. by rewrite H.
Qed.

Lemma preserves_ret {A} (a : A) : preserves (ret a).
Proof. intros w r w' [= <- <-]. apply fs_step_refl. Qed.

Lemma preserves_raise {A} (e : exn) : preserves (@raise A e).
Proof. intros w r w' [= <- <-]. apply fs_step_refl. Qed.

Lemma preserves_bind {A B} (m : M A) (k : A -> M B) :
  preserves m -> (forall a, preserves (k a)) -> preserves (bind m k).
Proof.
  intros Hm Hk w r w'. unfold bind.
  destruct (m w) as [[a|e] w1] eqn:E; intros H.
  - eapply fs_step_trans; [by eapply Hm | by eapply Hk].
  - injection H as <- <-. by eapply Hm.
Qed.

Lemma preserves_try {A} (m : M A) (c : exn -> bool) (h : exn -> M A) :
  preserves m -> (forall e, preserves (h e)) ->
  preserves (try_except m c h).
Proof.
  intros Hm Hh w r w'. unfold try_except.
  destruct (m w) as [[a|e] w1] eqn:E; intros H.
  - injection H as <- <-. by eapply Hm.
  - destruct (c e).
    + eapply fs_step_trans; [by eapply Hm | by eapply Hh].
    + injection H as <- <-. by eapply Hm.
Qed.

Lemma preserves_mkdir (p : Path) : preserves (OS.mkdir p).
Proof.
  intros w r w'. unfold OS.mkdir.
  destruct (OS.stat _ _); [| destruct (OS.is_dir _ _) |];
    intros [= <- <-];
    (apply fs_step_event || apply fs_step_log); reflexivity.
Qed.

Lemma preserves_accept (p : Path) (e : exn) :
  preserves (OS.accept_existing_dir p e).
Proof.
  intros w r w'. unfold OS.accept_existing_dir.
  destruct (OS.is_dir _ _); intros [= <- <-]; apply fs_step_refl.
Qed.

Lemma preserves_mkdir_exist_ok (p : Path) :
  preserves (OS.mkdir_exist_ok p).
Proof.
  apply preserves_try; [apply preserves_mkdir |].
  intros e. destruct (is_FileNotFoundError e);
    [apply preserves_raise | apply preserves_accept].
Qed.

Lemma preserves_mkdir_parents_rev (a : bool) (rparts : list (list N)) :
  preserves (OS.mkdir_parents_rev a rparts).
Proof.
  induction rparts as [|c up IH]; simpl;
    (apply preserves_try; [apply preserves_mkdir |]);
    intros e; destruct (is_FileNotFoundError e);
    try apply preserves_raise; try apply preserves_accept.
  apply preserves_bind; [exact IH |].
  intros _. apply preserves_mkdir_exist_ok.
Qed.

Lemma preserves_write_text (p : Path) (text : list N) :
  preserves (OS.write_text p text).
Proof.
  intros w r w'. unfold OS.write_text.
  destruct (OS.stat _ _) as [[|rd [|] ct]| |];
    [| | | destruct (OS.is_dir _ _) |];
    intros [= <- <-];
    (apply fs_step_event || apply fs_step_log); reflexivity.
Qed.

Lemma preserves_write_markdown (out : Path) (resp : Response) :
  preserves (write_markdown out resp).
Proof.
  apply preserves_bind; [apply preserves_mkdir_parents_rev |].
  intros _. apply preserves_write_text.
Qed.

End OutputSteps.

(** ** The shape of a run *)

Section RunShape.

Lemma run_ocr_unfold (args : Args) (w : World) :
  run_ocr (pdf args) (model args) (include_images args) (output args) w =
  match environ w !! "MISTRAL_API_KEY"%string with
  | None | Some [] => (Raise not_set, w)
  | Some key =>
      let w1 := log (EvReadBytes (pdf args)) w in
      match (OS.read_bytes (pdf args) w).1 with
      | Raise e => (Raise (read_failure (pdf args) e), w1)
      | Ok data =>
          let w2 := log (EvOcrProcess key (request args data)) w1 in
          match ocr_service w key (request args data) with
          | Raise e => (Raise (call_failure e), w2)
          | Ok resp =>
              match write_markdown (output args) resp w2 with
              | (Ok _, w3) => (Ok (PathLib.to_str (output args)), w3)
              | (Raise e, w3) => (Raise e, w3)
              end
          end
      end
  end.
Proof.
  unfold run_ocr, bind, OS.getenv. simpl.
  destruct (environ w !! "MISTRAL_API_KEY"%string) as [[|k key]|];
    try reflexivity.
  unfold encode_pdf, bind, try_except, OS.read_bytes, read_failure.
  simpl.
  destruct (OS.stat (fs w) (pdf args)) as [[|[|] wr [data|text]]| |];
    simpl; try reflexivity;
    unfold ocr_process, call_failure, request; simpl;
    match goal with
    | |- context [ocr_service w ?k ?r] =>
        destruct (ocr_service w k r) as [resp|e]
    end; simpl;
    try (destruct (is_SDKError e); reflexivity);
    match goal with
    | |- context [write_markdown ?o ?r ?w2] =>
        destruct (write_markdown o r w2) as [[[]|e] w3]
    end; reflexivity.
Qed.

Lemma run_unfold (args : Args) (w : World) :
  run args w =
  match run_ocr (pdf args) (model args) (include_images args)
                (output args) w with
  | (Ok out, w') =>
      (Exit 0,
       put_stdout ((Str.lit "OCR markdown written to " ++ out) ++ Str.nl) w')
  | (Raise e, w') =>
      if is_Exception e
      then (Exit 1,
            put_stderr ((Str.lit "Error: " ++ exn_str e) ++ Str.nl) w')
      else match e with
           | SystemExit code => (Exit code, w')
           | _ => (Uncaught e, w')
           end
  end.
Proof.
  unfold run, main, bind, try_except, OS.eprint, OS.exit, raise, OS.print.
  destruct (run_ocr _ _ _ _ w) as [[out|e] w']; [reflexivity |].
  destruct e as [[] msg|code]; reflexivity.
Qed.

End RunShape.

(** ** What a run reads, calls and writes *)

(** On a concrete run that reaches the service, the call is the second
    event after the read. *)
Ltac second_event := vm_compute; right; left; reflexivity.

Section RunEvents.

Lemma drop_trace2 (l : list event) (e1 e2 : event) (evs : list event) :
  drop (length l) (((l ++ [e1]) ++ [e2]) ++ evs) = e1 :: e2 :: evs.
Proof.
  rewrite <- !app_assoc. by rewrite drop_app_length.
Qed.

Lemma drop_trace1 (l : list event) (e1 : event) :
  drop (length l) (l ++ [e1]) = [e1].
Proof. by rewrite drop_app_length. Qed.

Lemma run_events (args : Args) (w : World) :
  match environ w !! "MISTRAL_API_KEY"%string with
  | None | Some [] =>
      new_events args w = [] /\ fs (run args w).2 = fs w
  | Some key =>
      match (OS.read_bytes (pdf args) w).1 with
      | Raise e =>
          new_events args w = [EvReadBytes (pdf args)]
          /\ fs (run args w).2 = fs w
      | Ok data =>
          match ocr_service w key (request args data) with
          | Raise e =>
              new_events args w =
                [EvReadBytes (pdf args);
                 EvOcrProcess key (request args data)]
              /\ fs (run args w).2 = fs w
          | Ok resp =>
              exists evs,
                new_events args w =
                  EvReadBytes (pdf args)
                    :: EvOcrProcess key (request args data) :: evs
                /\ forallb touches_output evs = true
          end
      end
  end.
Proof.
  unfold new_events. rewrite run_unfold, run_ocr_unfold.
  destruct (environ w !! "MISTRAL_API_KEY"%string) as [[|k key]|];
    simpl; try (by rewrite drop_all).
  destruct (OS.read_bytes (pdf args) w).1 as [data|e].
  - destruct (ocr_service w (k :: key) (request args data)) as [resp|e].
    + destruct (write_markdown _ _ _) as [[[]|e] w3] eqn:Hw;
        apply preserves_write_markdown in Hw as (f & evs & -> & Hev);
        exists evs; (split; [|exact Hev]).
      * simpl. apply drop_trace2.
      * destruct (is_Exception e); [|destruct e]; simpl;
          apply drop_trace2.
    + destruct (is_Exception (call_failure e));
        [|destruct (call_failure e)]; simpl;
        (split; [|reflexivity]);
        rewrite <- (app_nil_r (_ ++ [EvOcrProcess _ _]));
        apply drop_trace2.
  - destruct (is_Exception (read_failure (pdf args) e));
      [|destruct (read_failure (pdf args) e)]; simpl;
      (split; [|reflexivity]); apply drop_trace1.
Qed.

(** The only service call of a run is the one [run_ocr] builds from
    the bytes it read. *)
Lemma ocr_event_inv (args : Args) (w : World) (key : list N)
    (kwargs : gmap string pyval) :
  In (EvOcrProcess key kwargs) (new_events args w) ->
  exists data,
    environ w !! "MISTRAL_API_KEY"%string = Some key
    /\ key <> []
    /\ (OS.read_bytes (pdf args) w).1 = Ok data
    /\ kwargs = request args data.
Proof.
  pose proof (run_events args w) as H.
  destruct (environ w !! "MISTRAL_API_KEY"%string) as [[|k key']|].
  - destruct H as [-> _]. intros [].
  - destruct (OS.read_bytes (pdf args) w).1 as [data|e].
    + assert (Hin : forall evs,
                 forallb touches_output evs = true ->
                 In (EvOcrProcess key kwargs)
                    (EvReadBytes (pdf args)
                       :: EvOcrProcess (k :: key') (request args data)
                       :: evs) ->
                 exists data0,
                   Some (k :: key') = Some key /\ key <> []
                   /\ Ok data = Ok data0 /\ kwargs = request args data0).
      { intros evs Hev [Hi | [Hi | Hi]].
        - discriminate.
        - injection Hi as <- <-. by exists data.
        - rewrite forallb_forall in Hev. apply Hev in Hi.
          discriminate. }
      destruct (ocr_service w (k :: key') (request args data)).
      * destruct H as (evs & -> & Hev). by apply Hin.
      * destruct H as [-> _]. by apply (Hin []).
    + destruct H as [-> _]. intros [Hi | []]. discriminate.
  - destruct H as [-> _]. intros [].
Qed.

End RunEvents.

(** ** Output-side calls raise only [OSError]s *)

Section OutputErrors.

Lemma raises_os_try {A} (m : M A) (h : exn -> M A) :
  raises_os m ->
  (forall e, is_OSError e = true -> raises_os (h e)) ->
  raises_os (try_except m is_OSError h).
Proof.
  intros Hm Hh w e w'. unfold try_except.
  destruct (m w) as [[a|e0] w1] eqn:E; [discriminate |].
  pose proof (Hm _ _ _ E) as He0. rewrite He0.
  by apply Hh.
Qed.

Lemma raises_os_bind {A B} (m : M A) (k : A -> M B) :
  raises_os m -> (forall a, raises_os (k a)) -> raises_os (bind m k).
Proof.
  intros Hm Hk w e w'. unfold bind.
  destruct (m w) as [[a|e0] w1] eqn:E.
  - apply Hk.
  - intros [= <- <-]. by eapply Hm.
Qed.

Lemma raises_os_mkdir (p : Path) : raises_os (OS.mkdir p).
Proof.
  intros w e w'. unfold OS.mkdir.
  destruct (OS.stat _ _); [| destruct (OS.is_dir _ _) |];
    by intros [= <- <-].
Qed.

Lemma raises_os_handler (p : Path) (k : M unit) (e : exn) :
  raises_os k -> is_OSError e = true ->
  raises_os (if is_FileNotFoundError e then k
             else OS.accept_existing_dir p e).
Proof.
  intros Hk He. destruct (is_FileNotFoundError e); [exact Hk |].
  intros w e' w'. unfold OS.accept_existing_dir.
  destruct (OS.is_dir _ _); [discriminate |].
  by intros [= <- <-].
Qed.

Lemma raises_os_raise {A} (e : exn) :
  is_OSError e = true -> raises_os (@raise A e).
Proof. by intros He w e' w' [= <- <-]. Qed.

Lemma raises_os_mkdir_exist_ok (p : Path) :
  raises_os (OS.mkdir_exist_ok p).
Proof.
  apply raises_os_try; [apply raises_os_mkdir |].
  intros e He. apply raises_os_handler; [|exact He].
  by apply raises_os_raise.
Qed.

Lemma raises_os_mkdir_parents_rev (a : bool) (rparts : list (list N)) :
  raises_os (OS.mkdir_parents_rev a rparts).
Proof.
  induction rparts as [|c up IH]; simpl;
    (apply raises_os_try; [apply raises_os_mkdir |]);
    intros e He; (apply raises_os_handler; [|exact He]).
  - by apply raises_os_raise.
  - apply raises_os_bind; [exact IH |].
    intros _. apply raises_os_mkdir_exist_ok.
Qed.

Lemma raises_os_write_text (p : Path) (text : list N) :
  raises_os (OS.write_text p text).
Proof.
  intros w e w'. unfold OS.write_text.
  destruct (OS.stat _ _) as [[|rd [|] ct]| |];
    [| | | destruct (OS.is_dir _ _) |];
    by intros [= <- <-].
Qed.

Lemma raises_os_write_markdown (out : Path) (resp : Response) :
  raises_os (write_markdown out resp).
Proof.
  apply raises_os_bind; [apply raises_os_mkdir_parents_rev |].
  intros _. apply raises_os_write_text.
Qed.

Lemma is_OSError_Exception (e : exn) :
  is_OSError e = true -> is_Exception e = true.
Proof. by destruct e as [[] ?|?]. Qed.

End OutputErrors.

(** ** The written file *)

Section WrittenFile.

Lemma fold_output_lines (ps : list Page) :
  forall acc,
    fold_left (fun lines page => (lines ++ [page_heading page])
                                   ++ [page_body page]) ps acc
    = acc ++ flat_map (fun page => [page_heading page; page_body page]) ps.
Proof.
  induction ps as [|p ps IH]; intros acc; simpl.
  - by rewrite app_nil_r.
  - rewrite IH, <- !app_assoc. reflexivity.
Qed.

Lemma output_lines_flat (resp : Response) :
  output_lines resp =
  flat_map (fun page => [page_heading page; page_body page]) (pages resp).
Proof. unfold output_lines. by rewrite fold_output_lines. Qed.

Lemma join_output_lines (resp : Response) :
  Str.join_empty (output_lines resp) =
  concat (map (fun page => page_text (index page + 1) page) (pages resp)).
Proof.
  rewrite output_lines_flat. unfold Str.join_empty.
  induction (pages resp) as [|p ps IH]; [reflexivity |].
  cbn [flat_map concat map app]. rewrite IH.
  unfold page_text, page_heading, page_body.
  by rewrite <- !app_assoc.
Qed.

Lemma concat_by_position (ps : list Page) :
  forall k,
    (forall i page, ps !! i = Some page -> index page = k + Z.of_nat i) ->
    concat (map (fun page => page_text (index page + 1) page) ps)
    = numbered_from (k + 1) ps.
Proof.
  induction ps as [|p ps IH]; intros k Hk; [reflexivity |].
  cbn [concat map numbered_from].
  rewrite (Hk 0%nat p eq_refl), Z.add_0_r. f_equal.
  apply IH. intros i page Hi.
  rewrite (Hk (S i) page Hi). lia.
Qed.

Lemma output_lines_lookup (ps : list Page) :
  forall (i : nat) (page : Page),
    ps !! i = Some page ->
    flat_map (fun page => [page_heading page; page_body page]) ps
      !! (2 * i)%nat = Some (page_heading page)
    /\ flat_map (fun page => [page_heading page; page_body page]) ps
         !! (2 * i + 1)%nat = Some (page_body page).
Proof.
  induction ps as [|p ps IH]; intros i page Hi; [discriminate |].
  destruct i as [|i].
  - injection Hi as ->. split; reflexivity.
  - replace (2 * S i)%nat with (S (S (2 * i))) by lia.
    cbn [flat_map app Nat.add]. by apply IH.
Qed.

(** When the service answered and the run exits with code 0, the
    output path holds the joined [output_lines]. *)
Lemma run_written (args : Args) (w : World) (key : list N)
    (data : list Byte.byte) (resp : Response) :
  environ w !! "MISTRAL_API_KEY"%string = Some key -> key <> [] ->
  (OS.read_bytes (pdf args) w).1 = Ok data ->
  ocr_service w key (request args data) = Ok resp ->
  (run args w).1 = Exit 0 ->
  exists r,
    OS.stat (fs (run args w).2) (output args)
    = OS.Found (File r true (Text (Str.join_empty (output_lines resp)))).
Proof.
  intros Hkey Hne Hread Hsvc. rewrite run_unfold, run_ocr_unfold.
  rewrite Hkey. destruct key as [|k key]; [congruence |].
  simpl. rewrite Hread, Hsvc.
  destruct (write_markdown _ _ _) as [[[]|e] w3] eqn:Hw.
  - intros _. simpl.
    unfold write_markdown, bind in Hw.
    destruct (OS.mkdir_parents _ _) as [[[]|e] w'];
      [|discriminate].
    by apply write_text_stat in Hw.
  - apply raises_os_write_markdown, is_OSError_Exception in Hw.
    rewrite Hw. discriminate.
Qed.

End WrittenFile.

(** ** Failures reported by [main] *)

Section Failures.

Lemma run_raises (args : Args) (w w' : World) (e : exn) :
  run_ocr (pdf args) (model args) (include_images args) (output args) w
  = (Raise e, w') ->
  is_Exception e = true ->
  run args w = (Exit 1, put_stderr (error_line (exn_str e)) w').
Proof.
  intros H He. rewrite run_unfold, H, He. reflexivity.
Qed.

Lemma read_bytes_raises_os (p : Path) : raises_os (OS.read_bytes p).
Proof.
  intros w e w'. unfold OS.read_bytes.
  destruct (OS.stat _ _) as [[|[|] wr [data|text]]| |];
    by intros [= <- <-].
Qed.

Lemma read_failure_Exception (p : Path) (e : exn) :
  is_OSError e = true -> is_Exception (read_failure p e) = true.
Proof.
  intros He. unfold read_failure.
  destruct (is_FileNotFoundError e); [reflexivity |].
  by apply is_OSError_Exception.
Qed.

Lemma read_bytes_fst_raises (p : Path) (w : World) (e : exn) :
  (OS.read_bytes p w).1 = Raise e -> is_OSError e = true.
Proof.
  destruct (OS.read_bytes p w) as [r w'] eqn:E. simpl. intros ->.
  by eapply read_bytes_raises_os.
Qed.

(** A run that exits with code 0 had a credential and read the PDF;
    the service then answered, or itself asked to exit with 0. *)
Lemma run_exit0_inv (args : Args) (w : World) :
  (run args w).1 = Exit 0 ->
  exists key data,
    environ w !! "MISTRAL_API_KEY"%string = Some key /\ key <> []
    /\ (OS.read_bytes (pdf args) w).1 = Ok data
    /\ (ocr_service w key (request args data) = Raise (SystemExit 0)
        \/ exists resp, ocr_service w key (request args data) = Ok resp).
Proof.
  rewrite run_unfold, run_ocr_unfold.
  destruct (environ w !! "MISTRAL_API_KEY"%string) as [[|k key]|];
    try discriminate.
  simpl.
  destruct (OS.read_bytes (pdf args) w).1 as [data|e] eqn:Hr.
  - intros H. exists (k :: key), data.
    repeat split; try done.
    destruct (ocr_service w (k :: key) (request args data)) as [resp|e];
      [right; by exists resp | left].
    unfold call_failure in H.
    destruct e as [[] msg|code]; try discriminate.
    simpl in H. by injection H as ->.
  - apply read_bytes_fst_raises in Hr.
    rewrite (read_failure_Exception _ _ Hr). discriminate.
Qed.

End Failures.

(** ** A run that succeeds *)

Section Success.

Lemma mkdir_parents_rev_existing (a : bool) (rparts : list (list N))
    (w : World) :
  OS.is_dir (fs w) (mkPath a (rev rparts)) = true ->
  OS.mkdir_parents_rev a rparts w
  = (Ok tt, log (EvMkdir (mkPath a (rev rparts))) w).
Proof.
  intros Hd.
  assert (Hs : OS.stat (fs w) (mkPath a (rev rparts)) = OS.Found Dir).
  { unfold OS.is_dir in Hd.
    by destruct (OS.stat _ _) as [[|? ? ?]| |]. }
  destruct rparts as [|c up]; cbn [OS.mkdir_parents_rev];
    unfold try_except, OS.mkdir; cbn [fs log];
    rewrite Hs; cbn [is_OSError OS.EEXIST OS.os_error is_FileNotFoundError];
    unfold OS.accept_existing_dir; cbn [fs log];
    by rewrite Hd.
Qed.

Lemma mkdir_parents_existing (p : Path) (w : World) :
  OS.is_dir (fs w) p = true ->
  OS.mkdir_parents p w = (Ok tt, log (EvMkdir p) w).
Proof.
  intros Hd. unfold OS.mkdir_parents.
  rewrite mkdir_parents_rev_existing; rewrite rev_involutive;
    by destruct p.
Qed.

(** With a credential, a readable PDF, an answering service, an
    existing output directory and an output path that is free or a
    writable file, the run exits with code 0. *)
Lemma run_exits_0 (args : Args) (w : World) (key : list N)
    (data : list Byte.byte) (resp : Response) :
  environ w !! "MISTRAL_API_KEY"%string = Some key -> key <> [] ->
  (OS.read_bytes (pdf args) w).1 = Ok data ->
  ocr_service w key (request args data) = Ok resp ->
  OS.is_dir (fs w) (PathLib.parent (output args)) = true ->
  (OS.stat (fs w) (output args) = OS.NoEntry
   \/ exists r c, OS.stat (fs w) (output args) = OS.Found (File r true c)) ->
  (run args w).1 = Exit 0.
Proof.
  intros Hkey Hne Hread Hsvc Hdir Hout.
  rewrite run_unfold, run_ocr_unfold, Hkey.
  destruct key as [|k key]; [congruence |].
  cbv zeta. rewrite Hread, Hsvc.
  unfold write_markdown, bind.
  rewrite mkdir_parents_existing by exact Hdir.
  unfold OS.write_text. cbn [fs log].
  destruct Hout as [-> | (r & c & ->)]; [rewrite Hdir |]; reflexivity.
Qed.

End Success.

(** * The claims *)

(** ** Missing credential, missing PDF, failed call *)

(** C6. When [MISTRAL_API_KEY] is absent from the environment, the
    program exits with code 1 and the line it adds to standard error
    contains the variable's name. *)
Theorem absent_credential_exits_1 (args : Args) (w : World) :
  environ w !! "MISTRAL_API_KEY"%string = None ->
  (run args w).1 = Exit 1
  /\ stderr (run args w).2
     = stderr w
       ++ error_line
            (Str.lit "MISTRAL_API_KEY environment variable is not set")
  /\ Str.contains (Str.lit "MISTRAL_API_KEY")
       (error_line
          (Str.lit "MISTRAL_API_KEY environment variable is not set"))
     = true.
Proof.
  intros Hkey.
  assert (H : run args w
              = (Exit 1, put_stderr (error_line (exn_str not_set)) w)).
  { apply run_raises; [|reflexivity].
    rewrite run_ocr_unfold, Hkey. reflexivity. }
  rewrite H. split; [reflexivity |]. split; [reflexivity |].
  apply (error_line_contains (Str.lit "MISTRAL_API_KEY")
           (Str.lit " environment variable is not set")).
Qed.

Lemma absent_credential_witness :
  let w := Sample.world ∅ Sample.one_pdf (Sample.answers Sample.two_pages) in
  (run (Sample.args false) w).1 = Exit 1
  /\ stderr (run (Sample.args false) w).2
     = stderr w
       ++ error_line
            (Str.lit "MISTRAL_API_KEY environment variable is not set")
  /\ Str.contains (Str.lit "MISTRAL_API_KEY")
       (error_line
          (Str.lit "MISTRAL_API_KEY environment variable is not set"))
     = true.
Proof.
  exact (absent_credential_exits_1 (Sample.args false)
           (Sample.world ∅ Sample.one_pdf (Sample.answers Sample.two_pages))
           eq_refl).
Defined.

(** C9. A credential that is present but empty is treated like an
    absent one: exit code 1 and the same [MISTRAL_API_KEY] message,
    the PDF is not read, the service is not called and the file system
    is left as it was; the run on the world without the variable ends
    the same way. *)
Theorem empty_credential_like_absent (args : Args) (w : World) :
  environ w !! "MISTRAL_API_KEY"%string = Some [] ->
  (run args w).1 = Exit 1
  /\ stderr (run args w).2
     = stderr w
       ++ error_line
            (Str.lit "MISTRAL_API_KEY environment variable is not set")
  /\ new_events args w = []
  /\ fs (run args w).2 = fs w
  /\ (run args (unset_credential w)).1 = (run args w).1
  /\ stderr (run args (unset_credential w)).2 = stderr (run args w).2
  /\ new_events args (unset_credential w) = [].
Proof.
  intros Hkey.
  assert (H : run args w
              = (Exit 1, put_stderr (error_line (exn_str not_set)) w)).
  { apply run_raises; [|reflexivity].
    rewrite run_ocr_unfold, Hkey. reflexivity. }
  assert (Hu : environ (unset_credential w) !! "MISTRAL_API_KEY"%string = None)
    by apply lookup_delete_eq.
  assert (H' : run args (unset_credential w)
               = (Exit 1, put_stderr (error_line (exn_str not_set))
                            (unset_credential w))).
  { apply run_raises; [|reflexivity].
    rewrite run_ocr_unfold, Hu. reflexivity. }
  unfold new_events. rewrite H, H'. simpl.
  rewrite drop_all. repeat split.
Qed.

Lemma empty_credential_witness :
  let w := Sample.world (Sample.with_key []) Sample.one_pdf
             (Sample.answers Sample.two_pages) in
  (run (Sample.args false) w).1 = Exit 1
  /\ new_events (Sample.args false) w = [].
Proof.
  pose proof (empty_credential_like_absent (Sample.args false)
                (Sample.world (Sample.with_key []) Sample.one_pdf
                   (Sample.answers Sample.two_pages))
                eq_refl) as (H1 & _ & H3 & _).
  exact (conj H1 H3).
Defined.

(** C5, as the code has it. With a non-empty credential, an input
    path that does not exist makes the program exit with code 1 and
    add the line [Error: PDF not found: <path>] to standard error; the
    service is not called. *)
Theorem missing_pdf_exits_1 (args : Args) (w : World) (key : list N) :
  environ w !! "MISTRAL_API_KEY"%string = Some key -> key <> [] ->
  OS.stat (fs w) (pdf args) = OS.NoEntry ->
  (run args w).1 = Exit 1
  /\ stderr (run args w).2
     = stderr w
       ++ error_line (Str.lit "PDF not found: " ++ PathLib.to_str (pdf args))
  /\ Str.contains (Str.lit "PDF not found")
       (error_line (Str.lit "PDF not found: " ++ PathLib.to_str (pdf args)))
     = true
  /\ new_events args w = [EvReadBytes (pdf args)].
Proof.
  intros Hkey Hne Hstat.
  assert (Hread : OS.read_bytes (pdf args) w
                  = (Raise (OS.ENOENT (pdf args)),
                     log (EvReadBytes (pdf args)) w)).
  { unfold OS.read_bytes. simpl. by rewrite Hstat. }
  assert (H : run args w
              = (Exit 1,
                 put_stderr
                   (error_line (Str.lit "PDF not found: "
                                  ++ PathLib.to_str (pdf args)))
                   (log (EvReadBytes (pdf args)) w))).
  { apply (run_raises args w _
             (PyExc FileNotFoundError
                (Str.lit "PDF not found: " ++ PathLib.to_str (pdf args))));
      [|reflexivity].
    rewrite run_ocr_unfold, Hkey, Hread.
    destruct key; [congruence | reflexivity]. }
  unfold new_events. rewrite H. simpl.
  rewrite drop_trace1.
  split; [reflexivity |]. split; [reflexivity |]. split; [|reflexivity].
  apply (error_line_contains (Str.lit "PDF not found")
           (Str.lit ": " ++ PathLib.to_str (pdf args))).
Qed.

Lemma missing_pdf_witness :
  let w := Sample.world (Sample.with_key Sample.secret) ∅
             (Sample.answers Sample.two_pages) in
  (run (Sample.args false) w).1 = Exit 1
  /\ stderr (run (Sample.args false) w).2
     = error_line (Str.lit "PDF not found: doc.pdf").
Proof.
  pose proof (missing_pdf_exits_1 (Sample.args false)
                (Sample.world (Sample.with_key Sample.secret) ∅
                   (Sample.answers Sample.two_pages))
                Sample.secret eq_refl
                ltac:(discriminate) eq_refl) as (H1 & H2 & _).
  exact (conj H1 H2).
Defined.

(** C5 as stated fails: without a credential a missing PDF is reported
    as a missing credential, and a path that exists but is a directory
    is reported with the error of the operating system. *)
Lemma missing_pdf_counterexample :
  (let w := Sample.world ∅ ∅ (Sample.answers Sample.two_pages) in
   OS.stat (fs w) Sample.doc_pdf = OS.NoEntry
   /\ (run (Sample.args false) w).1 = Exit 1
   /\ Str.contains (Str.lit "PDF not found")
        (stderr (run (Sample.args false) w).2) = false)
  /\
  (let w := Sample.world (Sample.with_key Sample.secret) Sample.pdf_is_dir
              (Sample.answers Sample.two_pages) in
   OS.stat (fs w) Sample.doc_pdf = OS.Found Dir
   /\ (run (Sample.args false) w).1 = Exit 1
   /\ stderr (run (Sample.args false) w).2
      = error_line (Str.lit "[Errno 21] Is a directory: 'doc.pdf'")
   /\ Str.contains (Str.lit "PDF not found")
        (stderr (run (Sample.args false) w).2) = false).
Proof. vm_compute. repeat split. Qed.

(** C2, as the code has it. When [ocr.process] raises an [SDKError],
    the program exits with code 1 and the line it adds to standard
    error is [Error: OCR request failed: <err>]; any other [Exception]
    raised by the call also ends in exit code 1, reported with its own
    text. *)
Theorem failed_call_exits_1 (args : Args) (w : World) (key : list N)
    (data : list Byte.byte) (e : exn) :
  environ w !! "MISTRAL_API_KEY"%string = Some key -> key <> [] ->
  (OS.read_bytes (pdf args) w).1 = Ok data ->
  ocr_service w key (request args data) = Raise e ->
  is_Exception e = true ->
  (run args w).1 = Exit 1
  /\ stderr (run args w).2
     = stderr w
       ++ error_line (if is_SDKError e
                      then Str.lit "OCR request failed: " ++ exn_str e
                      else exn_str e)
  /\ (is_SDKError e = true ->
      Str.contains (Str.lit "OCR request failed")
        (error_line (Str.lit "OCR request failed: " ++ exn_str e)) = true).
Proof.
  intros Hkey Hne Hread Hsvc He.
  assert (H : run args w
              = (Exit 1,
                 put_stderr (error_line (exn_str (call_failure e)))
                   (log (EvOcrProcess key (request args data))
                      (log (EvReadBytes (pdf args)) w)))).
  { apply run_raises.
    - rewrite run_ocr_unfold, Hkey. destruct key; [congruence |].
      simpl. by rewrite Hread, Hsvc.
    - unfold call_failure. by destruct (is_SDKError e). }
  rewrite H. unfold call_failure. cbn [fst snd stderr put_stderr log].
  split; [reflexivity |]. split.
  - by destruct (is_SDKError e).
  - intros _.
    apply (error_line_contains (Str.lit "OCR request failed")
             (Str.lit ": " ++ exn_str e)).
Qed.

Lemma failed_call_witness :
  let e := PyExc SDKError (Str.lit "Status 401") in
  let w := Sample.world (Sample.with_key Sample.secret) Sample.one_pdf
             (Sample.fails e) in
  (run (Sample.args false) w).1 = Exit 1
  /\ stderr (run (Sample.args false) w).2
     = error_line (Str.lit "OCR request failed: Status 401").
Proof.
  pose proof (failed_call_exits_1 (Sample.args false)
                (Sample.world (Sample.with_key Sample.secret) Sample.one_pdf
                   (Sample.fails (PyExc SDKError (Str.lit "Status 401"))))
                Sample.secret Sample.pdf_bytes
                (PyExc SDKError (Str.lit "Status 401"))
                eq_refl ltac:(discriminate) eq_refl eq_refl eq_refl)
    as (H1 & H2 & _).
  exact (conj H1 H2).
Defined.

(** C2 as stated fails: an exception of the call that is not an
    [SDKError] (a transport error, say) is printed as it is. *)
Lemma failed_call_counterexample :
  let e := PyExc OtherException (Str.lit "connection refused") in
  let w := Sample.world (Sample.with_key Sample.secret) Sample.one_pdf
             (Sample.fails e) in
  ocr_service w Sample.secret
    (request (Sample.args false) Sample.pdf_bytes) = Raise e
  /\ In (EvOcrProcess Sample.secret
           (request (Sample.args false) Sample.pdf_bytes))
        (new_events (Sample.args false) w)
  /\ (run (Sample.args false) w).1 = Exit 1
  /\ stderr (run (Sample.args false) w).2
     = error_line (Str.lit "connection refused")
  /\ Str.contains (Str.lit "OCR request failed")
       (stderr (run (Sample.args false) w).2) = false.
Proof.
  cbv zeta. split; [reflexivity |]. split.
  - second_event.
  - vm_compute. repeat split.
Qed.

(** ** The written Markdown *)

(** C1, as the code has it. When the service answers and the run
    exits with code 0, the output file holds, in page order, one block
    per page: the heading [# Page <N>] with [N] the page's [index]
    field plus one, a blank line, the page's markdown without its
    trailing whitespace, and a blank line.  When the [index] fields
    are 0, 1, 2, ... in order, [N] is the position of the page. *)
Theorem written_markdown_numbers_by_index (args : Args) (w : World)
    (key : list N) (kwargs : gmap string pyval) (resp : Response) :
  In (EvOcrProcess key kwargs) (new_events args w) ->
  ocr_service w key kwargs = Ok resp ->
  (run args w).1 = Exit 0 ->
  exists r text,
    OS.stat (fs (run args w).2) (output args)
    = OS.Found (File r true (Text text))
    /\ text = concat (map (fun page => page_text (index page + 1) page)
                          (pages resp))
    /\ ((forall (i : nat) page,
            pages resp !! i = Some page -> index page = Z.of_nat i) ->
        text = markdown_by_position (pages resp)).
Proof.
  intros Hev Hsvc Hexit.
  apply ocr_event_inv in Hev as (data & Hkey & Hne & Hread & ->).
  destruct (run_written args w key data resp Hkey Hne Hread Hsvc Hexit)
    as [r Hstat].
  exists r, (Str.join_empty (output_lines resp)).
  split; [exact Hstat |]. rewrite join_output_lines.
  split; [reflexivity |].
  intros Hidx. apply (concat_by_position (pages resp) 0).
  intros i page Hi. rewrite (Hidx i page Hi). lia.
Qed.

Lemma written_markdown_witness :
  let w := Sample.world (Sample.with_key Sample.secret) Sample.one_pdf
             (Sample.answers Sample.two_pages) in
  exists r text,
    OS.stat (fs (run (Sample.args false) w).2) Sample.out_md
    = OS.Found (File r true (Text text))
    /\ text = concat (map (fun page => page_text (index page + 1) page)
                          (pages Sample.two_pages))
    /\ ((forall (i : nat) page,
            pages Sample.two_pages !! i = Some page ->
            index page = Z.of_nat i) ->
        text = markdown_by_position (pages Sample.two_pages)).
Proof.
  apply (written_markdown_numbers_by_index (Sample.args false)
           (Sample.world (Sample.with_key Sample.secret) Sample.one_pdf
              (Sample.answers Sample.two_pages))
           Sample.secret
           (request (Sample.args false) Sample.pdf_bytes)
           Sample.two_pages).
  - second_event.
  - reflexivity.
  - vm_compute. reflexivity.
Defined.

(** C1 as stated fails: a response whose only page carries index 4
    and markdown [" A"] is written under [# Page 5], not under the
    heading of its position, and keeps its leading blank. *)
Lemma written_markdown_counterexample :
  let resp := mkResponse [mkPage 4 (Str.lit " A")] in
  let w := Sample.world (Sample.with_key Sample.secret) Sample.one_pdf
             (Sample.answers resp) in
  (run (Sample.args false) w).1 = Exit 0
  /\ OS.stat (fs (run (Sample.args false) w).2) Sample.out_md
     = OS.Found
         (File true true
            (Text (Str.lit "# Page 5" ++ Str.nl ++ Str.nl
                     ++ Str.lit " A" ++ Str.nl ++ Str.nl)))
  /\ OS.stat (fs (run (Sample.args false) w).2) Sample.out_md
     <> OS.Found
          (File true true
             (Text (Str.lit "# Page 1" ++ Str.nl ++ Str.nl
                      ++ Str.lit "A" ++ Str.nl ++ Str.nl))).
Proof.
  vm_compute. repeat split. discriminate.
Qed.

(** C3. With a response whose pages are [(0, "A")] and [(1, "B")], a
    run that exits with code 0 leaves exactly
    ["# Page 1\n\nA\n\n# Page 2\n\nB\n\n"] in the output file. *)
Theorem two_pages_written (args : Args) (w : World) :
  (forall key kwargs,
      ocr_service w key kwargs
      = Ok (mkResponse [mkPage 0 (Str.lit "A"); mkPage 1 (Str.lit "B")])) ->
  (run args w).1 = Exit 0 ->
  exists r,
    OS.stat (fs (run args w).2) (output args)
    = OS.Found
        (File r true
           (Text (Str.lit "# Page 1" ++ Str.nl ++ Str.nl
                    ++ Str.lit "A" ++ Str.nl ++ Str.nl
                    ++ Str.lit "# Page 2" ++ Str.nl ++ Str.nl
                    ++ Str.lit "B" ++ Str.nl ++ Str.nl))).
Proof.
  intros Hsvc Hexit.
  destruct (run_exit0_inv args w Hexit)
    as (key & data & Hkey & Hne & Hread & _).
  apply (run_written args w key data _ Hkey Hne Hread (Hsvc _ _) Hexit).
Qed.

Lemma two_pages_witness :
  let w := Sample.world (Sample.with_key Sample.secret) Sample.one_pdf
             (Sample.answers Sample.two_pages) in
  (run (Sample.args false) w).1 = Exit 0
  /\ exists r,
       OS.stat (fs (run (Sample.args false) w).2) Sample.out_md
       = OS.Found
           (File r true
              (Text (Str.lit "# Page 1" ++ Str.nl ++ Str.nl
                       ++ Str.lit "A" ++ Str.nl ++ Str.nl
                       ++ Str.lit "# Page 2" ++ Str.nl ++ Str.nl
                       ++ Str.lit "B" ++ Str.nl ++ Str.nl))).
Proof.
  assert (Hexit : (run (Sample.args false)
                     (Sample.world (Sample.with_key Sample.secret)
                        Sample.one_pdf (Sample.answers Sample.two_pages))).1
                  = Exit 0)
    by (vm_compute; reflexivity).
  split; [exact Hexit |].
  exact (two_pages_written (Sample.args false)
           (Sample.world (Sample.with_key Sample.secret) Sample.one_pdf
              (Sample.answers Sample.two_pages))
           (fun _ _ => eq_refl) Hexit).
Defined.

(** C4, as the code has it. For every page of the response, the entry
    of [output_lines] that follows the page's heading is the page's
    markdown with its trailing whitespace removed, then two newlines:
    what is removed is a suffix of whitespace only, what is kept does
    not end in whitespace, and leading whitespace stays. *)
Theorem page_body_is_right_trimmed (resp : Response) (i : nat) (page : Page) :
  pages resp !! i = Some page ->
  output_lines resp !! (2 * i)%nat = Some (page_heading page)
  /\ output_lines resp !! (2 * i + 1)%nat
     = Some (Str.rstrip (markdown page) ++ Str.nl ++ Str.nl)
  /\ (exists ws,
         markdown page = Str.rstrip (markdown page) ++ ws
         /\ forallb Str.is_space ws = true)
  /\ (Str.rstrip (markdown page) <> [] ->
      Str.is_space (List.last (Str.rstrip (markdown page)) 0%N) = false).
Proof.
  intros Hi. rewrite output_lines_flat.
  destruct (output_lines_lookup (pages resp) i page Hi) as [Hh Hb].
  split; [exact Hh |]. split; [exact Hb |].
  split; [apply rstrip_suffix | apply rstrip_nonempty_last].
Qed.

Lemma page_body_witness :
  let page := mkPage 0 (Str.lit "  a b  ") in
  output_lines (mkResponse [page]) !! 1%nat
  = Some (Str.lit "  a b" ++ Str.nl ++ Str.nl).
Proof.
  pose proof (page_body_is_right_trimmed
                (mkResponse [mkPage 0 (Str.lit "  a b  ")]) 0
                (mkPage 0 (Str.lit "  a b  ")) eq_refl) as (_ & H & _).
  exact H.
Defined.

(** C4 as stated fails: leading whitespace of a page's markdown is
    written to the file. *)
Lemma page_body_counterexample :
  let page := mkPage 0 (Str.lit " A") in
  let w := Sample.world (Sample.with_key Sample.secret) Sample.one_pdf
             (Sample.answers (mkResponse [page])) in
  (run (Sample.args false) w).1 = Exit 0
  /\ OS.stat (fs (run (Sample.args false) w).2) Sample.out_md
     = OS.Found
         (File true true
            (Text (Str.lit "# Page 1" ++ Str.nl ++ Str.nl
                     ++ Str.lit " A" ++ Str.nl ++ Str.nl)))
  /\ Str.strip (markdown page) = Str.lit "A"
  /\ page_body page <> Str.strip (markdown page) ++ Str.nl ++ Str.nl.
Proof.
  vm_compute. repeat split. discriminate.
Qed.

(** ** The request *)

(** C7. Whenever a run calls the service, the keyword arguments hold
    [include_image_base64 = True] if [--include-images] was given, and
    have no such key otherwise. *)
Theorem include_images_key_iff_flag (args : Args) (w : World)
    (key : list N) (kwargs : gmap string pyval) :
  In (EvOcrProcess key kwargs) (new_events args w) ->
  kwargs !! "include_image_base64"%string
  = (if include_images args then Some (VBool true) else None).
Proof.
  intros Hev.
  apply ocr_event_inv in Hev as (data & _ & _ & _ & ->).
  unfold request, make_kwargs.
  destruct (include_images args); by simplify_map_eq.
Qed.

Lemma include_images_witness :
  let w := Sample.world (Sample.with_key Sample.secret) Sample.one_pdf
             (Sample.answers Sample.two_pages) in
  request (Sample.args true) Sample.pdf_bytes
    !! "include_image_base64"%string = Some (VBool true)
  /\ request (Sample.args false) Sample.pdf_bytes
       !! "include_image_base64"%string = None.
Proof.
  split.
  - apply (include_images_key_iff_flag (Sample.args true)
             (Sample.world (Sample.with_key Sample.secret) Sample.one_pdf
                (Sample.answers Sample.two_pages))
             Sample.secret).
    second_event.
  - apply (include_images_key_iff_flag (Sample.args false)
             (Sample.world (Sample.with_key Sample.secret) Sample.one_pdf
                (Sample.answers Sample.two_pages))
             Sample.secret).
    second_event.
Defined.



(** ** The output side *)

(** C10. When a run fails for a missing credential, an unreadable PDF
    or a failed remote call, the file system is left as it was and no
    directory is made and no file written. *)
Theorem failure_leaves_output_untouched (args : Args) (w : World) :
  fails_before_writing args w ->
  fs (run args w).2 = fs w
  /\ Forall (fun ev => touches_output ev = false) (new_events args w).
Proof.
  intros Hfail. pose proof (run_events args w) as H.
  destruct Hfail as [[Hk | Hk] | key e Hk Hne Hr | key data e Hk Hne Hr Hs];
    rewrite Hk in H.
  - destruct H as [-> ->]. by split.
  - destruct H as [-> ->]. by split.
  - destruct key; [congruence |]. rewrite Hr in H.
    destruct H as [-> ->]. split; [reflexivity |].
    by repeat constructor.
  - destruct key; [congruence |]. rewrite Hr, Hs in H.
    destruct H as [-> ->]. split; [reflexivity |].
    by repeat constructor.
Qed.

Lemma failure_leaves_output_untouched_witness :
  let w := Sample.world (Sample.with_key Sample.secret) Sample.one_pdf
             (Sample.fails (PyExc SDKError (Str.lit "Status 401"))) in
  fs (run (Sample.args false) w).2 = fs w
  /\ Forall (fun ev => touches_output ev = false)
       (new_events (Sample.args false) w).
Proof.
  apply failure_leaves_output_untouched.
  apply (failed_remote_call _ _ Sample.secret Sample.pdf_bytes
           (PyExc SDKError (Str.lit "Status 401")));
    [reflexivity | discriminate | reflexivity | reflexivity].
Defined.

(** The other direction of C10: an output-side event of a run comes
    after the service call, and that call returned a response. *)
Lemma output_touched_only_after_ocr (args : Args) (w : World) (ev : event) :
  In ev (new_events args w) -> touches_output ev = true ->
  exists key data resp evs,
    ocr_service w key (request args data) = Ok resp
    /\ new_events args w
       = EvReadBytes (pdf args)
           :: EvOcrProcess key (request args data) :: evs
    /\ In ev evs.
Proof.
  intros Hin Hev. pose proof (run_events args w) as H.
  destruct (environ w !! "MISTRAL_API_KEY"%string) as [[|k key]|].
  - destruct H as [H _]. rewrite H in Hin. destruct Hin.
  - destruct (OS.read_bytes (pdf args) w).1 as [data|e].
    + destruct (ocr_service w (k :: key) (request args data))
        as [resp|e] eqn:Hs.
      * destruct H as (evs & H & _). rewrite H in Hin.
        exists (k :: key), data, resp, evs.
        split; [exact Hs |]. split; [exact H |].
        destruct Hin as [<- | [<- | Hin]]; [discriminate .. | exact Hin].
      * destruct H as [H _]. rewrite H in Hin.
        destruct Hin as [<- | [<- | []]]; discriminate.
    + destruct H as [H _]. rewrite H in Hin.
      destruct Hin as [<- | []]; discriminate.
  - destruct H as [H _]. rewrite H in Hin. destruct Hin.
Qed.

(** * Further properties of the program *)

(** ** The paths a run may change *)

Section Frame.


Lemma touches_only_ret {A} (S : Path -> Prop) (a : A) :
  touches_only S (ret a).
Proof. by intros w r w' [= <- <-]. Qed.














End Frame.



(** ** Making the output directory *)

Section MakeDirectories.











End MakeDirectories.

Section WriteSucceeds.

Lemma resolve_found_parent (f : gmap Path node) (a : bool) (c : list N)
    (n : node) :
  forall r1 pre,
    OS.resolve f a pre (r1 ++ [c]) = OS.Found n ->
    OS.resolve f a pre r1 = OS.Found Dir.
Proof.
  induction r1 as [|c1 r1 IH]; intros pre H; cbn [OS.resolve app] in *.
  - by destruct (OS.node_at f (mkPath a pre)) as [[|r wr ct]|].
  - destruct (OS.node_at f (mkPath a pre)) as [[|r wr ct]|];
      try discriminate. by apply IH.
Qed.

(** Whatever a path resolves to, the directory above it exists. *)
Lemma stat_found_parent (f : gmap Path node) (p : Path) (n : node) :
  OS.stat f p = OS.Found n -> OS.is_dir f (PathLib.parent p) = true.
Proof.
  destruct p as [a ps]. unfold OS.is_dir, OS.stat, PathLib.parent.
  cbn [anchored parts].
  destruct ps as [|c ps _] using rev_ind; intros H.
  - reflexivity.
  - rewrite removelast_last.
    by rewrite (resolve_found_parent f a c n ps [] H).
Qed.


End WriteSucceeds.



(** ** What a run prints *)

Section Streams.

Lemma fs_step_streams (w w' : World) :
  fs_step w w' -> stdout w' = stdout w /\ stderr w' = stderr w.
Proof. by intros (f & evs & -> & _). Qed.

Lemma run_ocr_streams (args : Args) (w w' : World) (r : result (list N)) :
  run_ocr (pdf args) (model args) (include_images args) (output args) w
  = (r, w') ->
  stdout w' = stdout w /\ stderr w' = stderr w.
Proof.
  rewrite run_ocr_unfold.
  destruct (environ w !! "MISTRAL_API_KEY"%string) as [[|k key]|];
    try by intros [= <- <-].
  cbv zeta.
  destruct (OS.read_bytes (pdf args) w).1 as [data|e];
    [|by intros [= <- <-]].
  destruct (ocr_service w (k :: key) (request args data)) as [resp|e];
    [|by intros [= <- <-]].
  destruct (write_markdown _ _ _) as [[[]|e] w3] eqn:Hw;
    intros [= <- <-];
    by apply preserves_write_markdown, fs_step_streams in Hw.
Qed.

End Streams.

(** X3. When the service answered and the run exits with code 0, the
    run adds the line [OCR markdown written to <output>] to standard
    output and nothing to standard error. *)
Theorem success_prints_output_path (args : Args) (w : World)
    (key : list N) (kwargs : gmap string pyval) (resp : Response) :
  In (EvOcrProcess key kwargs) (new_events args w) ->
  ocr_service w key kwargs = Ok resp ->
  (run args w).1 = Exit 0 ->
  stdout (run args w).2
  = stdout w
    ++ (Str.lit "OCR markdown written to " ++ PathLib.to_str (output args))
    ++ Str.nl
  /\ stderr (run args w).2 = stderr w.
Proof.
  intros Hev Hsvc.
  apply ocr_event_inv in Hev as (data & Hkey & Hne & Hread & ->).
  rewrite run_unfold.
  destruct (run_ocr _ _ _ _ w) as [[out|e] w'] eqn:Hrun.
  - intros _. pose proof (run_ocr_streams _ _ _ _ Hrun) as [Ho He].
    cbn [snd stdout stderr put_stdout]. rewrite Ho, He.
    split; [|reflexivity]. do 3 f_equal.
    rewrite run_ocr_unfold, Hkey in Hrun.
    destruct key as [|k key]; [congruence |].
    cbv zeta in Hrun. rewrite Hread, Hsvc in Hrun.
    destruct (write_markdown _ _ _) as [[[]|e] w3]; congruence.
  - rewrite run_ocr_unfold, Hkey in Hrun.
    destruct key as [|k key]; [congruence |].
    cbv zeta in Hrun. rewrite Hread, Hsvc in Hrun.
    destruct (write_markdown _ _ _) as [[[]|e0] w3] eqn:Hw;
      [discriminate |].
    injection Hrun as <- <-.
    apply raises_os_write_markdown, is_OSError_Exception in Hw.
    rewrite Hw. discriminate.
Qed.

Lemma success_prints_output_path_witness :
  let w := Sample.world (Sample.with_key Sample.secret) Sample.one_pdf
             (Sample.answers Sample.two_pages) in
  stdout (run (Sample.args false) w).2
  = Str.lit "OCR markdown written to out/sub/ocr_output.md" ++ Str.nl
  /\ stderr (run (Sample.args false) w).2 = [].
Proof.
  apply (success_prints_output_path (Sample.args false)
           (Sample.world (Sample.with_key Sample.secret) Sample.one_pdf
              (Sample.answers Sample.two_pages))
           Sample.secret
           (request (Sample.args false) Sample.pdf_bytes)
           Sample.two_pages).
  - second_event.
  - reflexivity.
  - vm_compute. reflexivity.
Defined.



(** ** More on the request *)

(** X5. Whenever a run calls the service, the client was built from
    the non-empty value of [MISTRAL_API_KEY], the [model] argument is
    the one of the command line, and no keyword argument beyond
    [model], [document] and, with [--include-images],
    [include_image_base64] is passed. *)
Theorem request_carries_model_and_credential (args : Args) (w : World)
    (key : list N) (kwargs : gmap string pyval) :
  In (EvOcrProcess key kwargs) (new_events args w) ->
  environ w !! "MISTRAL_API_KEY"%string = Some key
  /\ key <> []
  /\ kwargs !! "model"%string = Some (VStr (model args))
  /\ dom kwargs
     = {[ "model"%string; "document"%string ]}
       ∪ (if include_images args
          then {[ "include_image_base64"%string ]} else ∅).
Proof.
  intros Hev.
  apply ocr_event_inv in Hev as (data & Hkey & Hne & _ & ->).
  split; [exact Hkey |]. split; [exact Hne |].
  unfold request, make_kwargs.
  destruct (include_images args); (split; [by simplify_map_eq |]);
    rewrite ?dom_insert_L, dom_singleton_L; set_solver.
Qed.

Lemma request_carries_model_witness :
  let w := Sample.world (Sample.with_key Sample.secret) Sample.one_pdf
             (Sample.answers Sample.two_pages) in
  request (Sample.args false) Sample.pdf_bytes !! "model"%string
  = Some (VStr (Str.lit "mistral-ocr-latest")).
Proof.
  intros w.
  destruct (request_carries_model_and_credential (Sample.args false) w
              Sample.secret (request (Sample.args false) Sample.pdf_bytes)
              ltac:(second_event)) as (_ & _ & H & _).
  exact H.
Defined.

(** X6. A run reads the PDF at most once and calls the service at most
    once; a call is always preceded by the read. *)
Theorem at_most_one_call (args : Args) (w : World) :
  (length (List.filter is_read (new_events args w)) <= 1)%nat
  /\ (length (List.filter is_call (new_events args w)) <= 1)%nat
  /\ (List.filter is_call (new_events args w) <> [] ->
      exists key kwargs evs,
        new_events args w
        = EvReadBytes (pdf args) :: EvOcrProcess key kwargs :: evs).
Proof.
  assert (Hnone : forall evs,
             forallb touches_output evs = true ->
             List.filter is_read evs = [] /\ List.filter is_call evs = []).
  { induction evs as [|ev evs IH]; [done |].
    cbn [forallb]. intros [Hev Hevs]%andb_prop.
    destruct ev; try discriminate; cbn; by apply IH. }
  pose proof (run_events args w) as H.
  destruct (environ w !! "MISTRAL_API_KEY"%string) as [[|k key]|].
  - destruct H as [-> _]. cbn. repeat split; (lia || done).
  - destruct (OS.read_bytes (pdf args) w).1 as [data|e].
    + destruct (ocr_service w (k :: key) (request args data)).
      * destruct H as (evs & -> & Hev).
        destruct (Hnone evs Hev) as [Hr Hc].
        cbn [List.filter is_read is_call]. rewrite Hr, Hc. cbn.
        repeat split; try lia. intros _. by eexists _, _, _.
      * destruct H as [-> _]. cbn.
        repeat split; try lia. intros _. by eexists _, _, _.
    + destruct H as [-> _]. cbn. repeat split; (lia || done).
  - destruct H as [-> _]. cbn. repeat split; (lia || done).
Qed.

Lemma at_most_one_call_witness :
  let w := Sample.world (Sample.with_key Sample.secret) Sample.one_pdf
             (Sample.answers Sample.two_pages) in
  exists key kwargs evs,
    new_events (Sample.args false) w
    = EvReadBytes Sample.doc_pdf :: EvOcrProcess key kwargs :: evs.
Proof.
  intros w.
  destruct (at_most_one_call (Sample.args false) w) as (_ & _ & H).
  apply H. vm_compute. discriminate.
Defined.

(** ** Other failures *)

(** X7. With a non-empty credential, a failure to read the PDF that is
    not [FileNotFoundError] (a directory, a file without read
    permission) ends the run with exit code 1 and the error's own text
    after [Error: ]; the service is not called. *)
Theorem other_read_errors_reported_as_is (args : Args) (w : World)
    (key : list N) (e : exn) :
  environ w !! "MISTRAL_API_KEY"%string = Some key -> key <> [] ->
  (OS.read_bytes (pdf args) w).1 = Raise e ->
  is_FileNotFoundError e = false ->
  (run args w).1 = Exit 1
  /\ stderr (run args w).2 = stderr w ++ error_line (exn_str e)
  /\ new_events args w = [EvReadBytes (pdf args)].
Proof.
  intros Hkey Hne Hread Hfnf.
  assert (H : run args w
              = (Exit 1,
                 put_stderr (error_line (exn_str e))
                   (log (EvReadBytes (pdf args)) w))).
  { apply run_raises.
    - rewrite run_ocr_unfold, Hkey. destruct key; [congruence |].
      cbv zeta. rewrite Hread. unfold read_failure. by rewrite Hfnf.
    - by apply is_OSError_Exception, (read_bytes_fst_raises (pdf args) w). }
  unfold new_events. rewrite H. cbn [fst snd stderr trace put_stderr log].
  by rewrite drop_trace1.
Qed.

Lemma other_read_errors_witness :
  let w := Sample.world (Sample.with_key Sample.secret) Sample.pdf_is_dir
             (Sample.answers Sample.two_pages) in
  (run (Sample.args false) w).1 = Exit 1
  /\ stderr (run (Sample.args false) w).2
     = error_line (Str.lit "[Errno 21] Is a directory: 'doc.pdf'")
  /\ new_events (Sample.args false) w = [EvReadBytes Sample.doc_pdf].
Proof.
  exact (other_read_errors_reported_as_is (Sample.args false)
           (Sample.world (Sample.with_key Sample.secret) Sample.pdf_is_dir
              (Sample.answers Sample.two_pages))
           Sample.secret (OS.EISDIR Sample.doc_pdf)
           eq_refl ltac:(discriminate) eq_refl eq_refl).
Defined.

(** X8. An exception of the call that is not an [Exception] (a
    keyboard interrupt, a [SystemExit]) is caught neither by [run_ocr]
    nor by [main]: nothing is printed, the file system is left as it
    was, and the exception ends the process. *)
Theorem non_exception_escapes (args : Args) (w : World) (key : list N)
    (data : list Byte.byte) (e : exn) :
  environ w !! "MISTRAL_API_KEY"%string = Some key -> key <> [] ->
  (OS.read_bytes (pdf args) w).1 = Ok data ->
  ocr_service w key (request args data) = Raise e ->
  is_Exception e = false ->
  (run args w).1 = match e with
                   | SystemExit code => Exit code
                   | _ => Uncaught e
                   end
  /\ stdout (run args w).2 = stdout w
  /\ stderr (run args w).2 = stderr w
  /\ fs (run args w).2 = fs w.
Proof.
  intros Hkey Hne Hread Hsvc He.
  rewrite run_unfold, run_ocr_unfold, Hkey.
  destruct key; [congruence |]. cbv zeta. rewrite Hread, Hsvc.
  assert (Hc : call_failure e = e).
  { unfold call_failure. by destruct e as [[] ?|?]. }
  rewrite Hc, He. by destruct e.
Qed.

Lemma non_exception_escapes_witness :
  let e := PyExc KeyboardInterrupt [] in
  let w := Sample.world (Sample.with_key Sample.secret) Sample.one_pdf
             (Sample.fails e) in
  (run (Sample.args false) w).1 = Uncaught e
  /\ stderr (run (Sample.args false) w).2 = [].
Proof.
  intros e w.
  destruct (non_exception_escapes (Sample.args false) w Sample.secret
              Sample.pdf_bytes e eq_refl ltac:(discriminate)
              eq_refl eq_refl eq_refl) as (H1 & _ & H3 & _).
  exact (conj H1 H3).
Defined.

(** X9. The output path is not looked at before the call: when it is
    an existing directory, the service is still called, and only then
    does the run fail, with exit code 1 and the [IsADirectoryError] of
    the write; no file is written. *)
Theorem output_directory_fails_after_call (args : Args) (w : World)
    (key : list N) (data : list Byte.byte) (resp : Response) :
  environ w !! "MISTRAL_API_KEY"%string = Some key -> key <> [] ->
  (OS.read_bytes (pdf args) w).1 = Ok data ->
  ocr_service w key (request args data) = Ok resp ->
  OS.stat (fs w) (output args) = OS.Found Dir ->
  (run args w).1 = Exit 1
  /\ stderr (run args w).2
     = stderr w ++ error_line (exn_str (OS.EISDIR (output args)))
  /\ In (EvOcrProcess key (request args data)) (new_events args w)
  /\ fs (run args w).2 = fs w.
Proof.
  intros Hkey Hne Hread Hsvc Hout.
  assert (Hw : forall w2,
             fs w2 = fs w ->
             write_markdown (output args) resp w2
             = (Raise (OS.EISDIR (output args)),
                log (EvWriteText (output args)
                       (Str.join_empty (output_lines resp)))
                  (log (EvMkdir (PathLib.parent (output args))) w2))).
  { intros w2 Hfs. unfold write_markdown, bind.
    rewrite mkdir_parents_existing
      by (rewrite Hfs; by eapply stat_found_parent).
    unfold OS.write_text. cbn [fs log]. by rewrite Hfs, Hout. }
  assert (H : run args w
              = (Exit 1,
                 put_stderr (error_line (exn_str (OS.EISDIR (output args))))
                   (log (EvWriteText (output args)
                           (Str.join_empty (output_lines resp)))
                      (log (EvMkdir (PathLib.parent (output args)))
                         (log (EvOcrProcess key (request args data))
                            (log (EvReadBytes (pdf args)) w)))))).
  { apply run_raises; [|reflexivity].
    rewrite run_ocr_unfold, Hkey. destruct key; [congruence |].
    cbv zeta. rewrite Hread, Hsvc. by rewrite Hw. }
  unfold new_events. rewrite H. cbn [fst snd stderr trace fs put_stderr log].
  repeat split.
  rewrite <- !app_assoc, drop_app_length. cbn. auto.
Qed.

Lemma output_directory_witness :
  let args := mkArgs Sample.doc_pdf (Str.lit "mistral-ocr-latest") false
                (mkPath false []) in
  let w := Sample.world (Sample.with_key Sample.secret) Sample.one_pdf
             (Sample.answers Sample.two_pages) in
  (run args w).1 = Exit 1
  /\ stderr (run args w).2
     = error_line (Str.lit "[Errno 21] Is a directory: '.'").
Proof.
  intros args w.
  destruct (output_directory_fails_after_call args w Sample.secret
              Sample.pdf_bytes Sample.two_pages eq_refl
              ltac:(discriminate) eq_refl eq_refl eq_refl)
    as (H1 & H2 & _).
  exact (conj H1 H2).
Defined.

(** ** The encoded PDF *)

Section EncodedPdf.

Lemma list_ind3 {A} (P : list A -> Prop) :
  P [] -> (forall a, P [a]) -> (forall a b, P [a; b]) ->
  (forall a b c l, P l -> P (a :: b :: c :: l)) ->
  forall l, P l.
Proof.
  intros H0 H1 H2 H3 l.
  assert (H : P l /\ (forall a, P (a :: l)) /\ (forall a b, P (a :: b :: l))).
  { induction l as [|x l (IH0 & IH1 & IH2)]; [by repeat split |].
    split; [apply IH1 |]. split; [intros a; apply IH2 |].
    intros a b. by apply H3. }
  apply H.
Qed.

Lemma alphabet_b64_char (v : N) :
  (v < 64)%N -> is_b64_char (Base64.alphabet v) = true.
Proof.
  intros Hv. unfold Base64.alphabet, is_b64_char.
  destruct (v <? 26)%N eqn:H1; [apply N.ltb_lt in H1 | apply N.ltb_ge in H1];
    [|destruct (v <? 52)%N eqn:H2;
        [apply N.ltb_lt in H2 | apply N.ltb_ge in H2];
        [|destruct (v <? 62)%N eqn:H3;
            [apply N.ltb_lt in H3 | apply N.ltb_ge in H3];
            [|destruct (v =? 62)%N]]];
    rewrite !orb_true_iff, !andb_true_iff, !N.leb_le, !N.eqb_eq; lia.
Qed.

Lemma sextet_b64_char (word shift : N) :
  is_b64_char (Base64.sextet word shift) = true.
Proof.
  unfold Base64.sextet. apply alphabet_b64_char.
  change 63%N with (N.ones 6). rewrite N.land_ones.
  by apply N.mod_lt.
Qed.

Lemma b64encode_chars (data : list Byte.byte) :
  forallb is_b64_char (Base64.b64encode data) = true.
Proof.
  induction data as [|a|a b|a b c l IH] using list_ind3;
    cbn [Base64.b64encode forallb]; rewrite ?sextet_b64_char;
    [reflexivity .. | exact IH].
Qed.

Lemma b64encode_length (data : list Byte.byte) :
  length (Base64.b64encode data) = (4 * ((length data + 2) / 3))%nat.
Proof.
  induction data as [|a|a b|a b c l IH] using list_ind3;
    try reflexivity.
  cbn [Base64.b64encode length]. rewrite IH.
  replace (S (S (S (length l))) + 2)%nat with (length l + 2 + 1 * 3)%nat
    by lia.
  rewrite Nat.div_add by lia. lia.
Qed.

End EncodedPdf.

(** X10. What [encode_pdf] returns for a readable file is padded
    base64 text without line breaks: four characters for every three
    bytes read (rounded up), each a letter, a digit, [+], [/] or [=];
    the file system is left as it was. *)
Theorem encode_pdf_is_base64_text (p : Path) (w : World) (s : list N) :
  (encode_pdf p w).1 = Ok s ->
  exists data,
    (OS.read_bytes p w).1 = Ok data
    /\ s = Base64.b64encode data
    /\ length s = (4 * ((length data + 2) / 3))%nat
    /\ forallb is_b64_char s = true
    /\ fs (encode_pdf p w).2 = fs w.
Proof.
  unfold encode_pdf, bind, try_except, OS.read_bytes. cbn [fs log].
  destruct (OS.stat (fs w) p) as [[|[|] wr [data|text]]| |];
    cbn; intros [= <-];
    eexists; (split; [reflexivity |]); (split; [reflexivity |]);
    (split; [apply b64encode_length |]);
    (split; [apply b64encode_chars | reflexivity]).
Qed.

Lemma encode_pdf_witness :
  let w := Sample.world (Sample.with_key Sample.secret) Sample.one_pdf
             (Sample.answers Sample.two_pages) in
  exists data,
    (OS.read_bytes Sample.doc_pdf w).1 = Ok data
    /\ Str.lit "JVBERg==" = Base64.b64encode data
    /\ length (Str.lit "JVBERg==") = (4 * ((length data + 2) / 3))%nat
    /\ forallb is_b64_char (Str.lit "JVBERg==") = true
    /\ fs (encode_pdf Sample.doc_pdf w).2 = fs w.
Proof.
  exact (encode_pdf_is_base64_text Sample.doc_pdf
           (Sample.world (Sample.with_key Sample.secret) Sample.one_pdf
              (Sample.answers Sample.two_pages))
           (Str.lit "JVBERg==") eq_refl).
Defined.

(** ** Edge cases of the written text *)

Section EdgeCases.

Lemma rstrip_all_space (s : list N) :
  forallb Str.is_space s = true -> Str.rstrip s = [].
Proof.
  induction s as [|c s IH]; [reflexivity |].
  cbn [forallb Str.rstrip]. intros [Hc Hs]%andb_prop.
  by rewrite (IH Hs), Hc.
Qed.

Lemma rstrip_keeps (s : list N) (c : N) :
  Str.is_space c = false -> Str.rstrip (s ++ [c]) = s ++ [c].
Proof.
  intros Hc. induction s as [|a s IH].
  - cbn. by rewrite Hc.
  - cbn [app Str.rstrip]. rewrite IH. by destruct (s ++ [c]) eqn:E;
      [destruct s; discriminate |].
Qed.

End EdgeCases.

(** X11. A page whose markdown is empty or whitespace only
    contributes nothing but its heading and the blank line after it;
    a page whose markdown ends in a character that is not whitespace
    is written unchanged. *)
Theorem blank_page_body (page : Page) :
  (forallb Str.is_space (markdown page) = true ->
   page_body page = Str.nl ++ Str.nl)
  /\ (forall s c,
         markdown page = s ++ [c] -> Str.is_space c = false ->
         page_body page = markdown page ++ Str.nl ++ Str.nl).
Proof.
  unfold page_body. split.
  - intros H. by rewrite rstrip_all_space.
  - intros s c -> Hc. by rewrite rstrip_keeps.
Qed.

Lemma blank_page_body_witness :
  page_body (mkPage 0 (Str.lit "   ")) = Str.nl ++ Str.nl
  /\ page_body (mkPage 0 (Str.lit " a")) = Str.lit " a" ++ Str.nl ++ Str.nl.
Proof.
  split.
  - exact (proj1 (blank_page_body (mkPage 0 (Str.lit "   "))) eq_refl).
  - exact (proj2 (blank_page_body (mkPage 0 (Str.lit " a")))
             (Str.lit " ") 97%N eq_refl eq_refl).
Defined.

(** X12. When the service answers with no page at all and the run
    exits with code 0, the output file is written and is empty. *)
Theorem empty_response_writes_empty_file (args : Args) (w : World)
    (key : list N) (kwargs : gmap string pyval) (resp : Response) :
  In (EvOcrProcess key kwargs) (new_events args w) ->
  ocr_service w key kwargs = Ok resp ->
  pages resp = [] ->
  (run args w).1 = Exit 0 ->
  exists r,
    OS.stat (fs (run args w).2) (output args)
    = OS.Found (File r true (Text [])).
Proof.
  intros Hev Hsvc Hpages Hexit.
  apply ocr_event_inv in Hev as (data & Hkey & Hne & Hread & ->).
  destruct (run_written args w key data resp Hkey Hne Hread Hsvc Hexit)
    as [r Hstat].
  exists r. rewrite Hstat, join_output_lines, Hpages. reflexivity.
Qed.

Lemma empty_response_witness :
  let w := Sample.world (Sample.with_key Sample.secret) Sample.one_pdf
             (Sample.answers (mkResponse [])) in
  exists r,
    OS.stat (fs (run (Sample.args false) w).2) Sample.out_md
    = OS.Found (File r true (Text [])).
Proof.
  apply (empty_response_writes_empty_file (Sample.args false)
           (Sample.world (Sample.with_key Sample.secret) Sample.one_pdf
              (Sample.answers (mkResponse [])))
           Sample.secret
           (request (Sample.args false) Sample.pdf_bytes)
           (mkResponse [])).
  - second_event.
  - reflexivity.
  - reflexivity.
  - vm_compute. reflexivity.
Defined.
